(** * Task assignment in the continuum scenarios

    A shallow embedding of
    - [continuum/scenarios/segmentation.py]
      ([SegmentationClassIncremental] and [_filter_images]), and
    - [continuum/scenarios/transformation_incremental.py]
      ([TransformationIncremental]),
    together with the properties of the class/task assignment that the
    specification states about them.

    Conventions of the embedding:
    - Python [int] is [Z]; lengths and positions produced by [enumerate]
      are [nat].
    - A Python call that may raise returns a [result]; the exception is
      kept as a value of [exn].
    - numpy arrays of task indexes or membership flags hold the doubles
      [0.0], [1.0] or [float(task_index)]; each is an integer, and is
      modelled by that [Z] ([float_of_int] gives the double of an
      [int]).
    - [dict] is [gmap Z Z], [set] is [gset Z]. *)

From Stdlib Require Import ZArith Lia.
From stdpp Require Import base list gmap strings.

Local Open Scope Z_scope.

(** ** Python prelude *)

Module Py.

Inductive exn : Type :=
| ValueError
| IndexError
| TypeError
| AttributeError
| UnboundLocalError
| OverflowError.

Inductive result (A : Type) : Type :=
| Ok (a : A)
| Raise (e : exn).
Arguments Ok {A} a.
Arguments Raise {A} e.

#[export] Instance result_ret : MRet result := fun A a => Ok a.
#[export] Instance result_bind : MBind result :=
  fun A B f m => match m with Ok a => f a | Raise e => Raise e end.

(** A [for] loop whose body may raise: the loop state is threaded from
    left to right and the first exception leaves the loop. *)
Fixpoint for_each {A S : Type} (body : S -> A -> result S) (s : S) (l : list A)
  : result S :=
  match l with
  | [] => Ok s
  | a :: l' => s' ← body s a; for_each body s' l'
  end.

Fixpoint enumerate_from {A : Type} (k : nat) (l : list A) : list (nat * A) :=
  match l with
  | [] => []
  | a :: l' => (k, a) :: enumerate_from (S k) l'
  end.

Definition enumerate {A : Type} (l : list A) : list (nat * A) :=
  enumerate_from 0 l.

Definition len {A : Type} (l : list A) : Z := Z.of_nat (length l).

(** Bound of a slice [l[start:stop]] (step 1): a negative bound counts
    from the end, and every bound is clamped into [0 .. len l]. *)
Definition slice_bound (n i : Z) : Z :=
  if i <? 0 then Z.max 0 (i + n) else Z.min i n.

(** [l[start:stop]] *)
Definition slice {A : Type} (l : list A) (start stop : Z) : list A :=
  let a := slice_bound (len l) start in
  let b := slice_bound (len l) stop in
  take (Z.to_nat (b - a)) (drop (Z.to_nat a) l).

(** [l[:stop]] *)
Definition slice_to {A : Type} (l : list A) (stop : Z) : list A :=
  slice l 0 stop.

(** [l[i]] : negative positions count from the end, anything outside
    [-len l .. len l - 1] raises [IndexError]. *)
Definition getitem {A : Type} (l : list A) (i : Z) : result A :=
  let j := if i <? 0 then i + len l else i in
  if j <? 0 then Raise IndexError
  else match l !! Z.to_nat j with
       | Some a => Ok a
       | None => Raise IndexError
       end.

(** [sum(l)] *)
Definition sum (l : list Z) : Z := foldr Z.add 0 l.

(** [c in l] for a list *)
Definition contains (c : Z) (l : list Z) : bool := bool_decide (c ∈ l).

(** [any(p(c) for c in l)] and [all(p(c) for c in l)] *)
Definition any {A : Type} (p : A -> bool) (l : list A) : bool := existsb p l.
Definition all {A : Type} (p : A -> bool) (l : list A) : bool := forallb p l.

(** [l.index(v)] : position of the first occurrence, [ValueError] when
    there is none. *)
Fixpoint index (l : list Z) (v : Z) : result Z :=
  match l with
  | [] => Raise ValueError
  | x :: l' => if decide (x = v) then Ok 0 else i ← index l' v; Ok (i + 1)
  end.

(** [list(range(a, b))] *)
Definition range (a b : Z) : list Z :=
  map (fun k => a + Z.of_nat k) (seq 0 (Z.to_nat (b - a))).

(** [np.unique] of a flat integer array: its values, sorted, each once. *)
Fixpoint insert_unique (v : Z) (l : list Z) : list Z :=
  match l with
  | [] => [v]
  | x :: l' =>
      if v <? x then v :: l
      else if v =? x then l
      else x :: insert_unique v l'
  end.

Definition np_unique (a : list Z) : list Z := foldr insert_unique [] a.

(** [np.zeros((rows, cols))] *)
Definition np_zeros (rows cols : nat) : list (list Z) :=
  replicate rows (replicate cols 0).

(** [t[i, j] = v] on a two-dimensional array. *)
Definition np_setitem (t : list (list Z)) (i j : nat) (v : Z)
  : result (list (list Z)) :=
  match t !! i with
  | Some row =>
      if decide (j < length row)%nat then Ok (<[i := <[j := v]> row]> t)
      else Raise IndexError
  | None => Raise IndexError
  end.

(** The double that an [int] is converted to, as an integer: the [int]
    itself while its magnitude has at most 53 bits; beyond, the
    magnitude is rounded to 53 significant bits, to the nearest and to
    the even one on a tie; [OverflowError] when the rounded magnitude
    reaches [2 ^ 1024]. *)
Definition float_of_int (t : Z) : result Z :=
  let a := Z.abs t in
  let e := Z.log2 a - 52 in
  if e <=? 0 then Ok t
  else
    let q := a / 2 ^ e in
    let r := a mod 2 ^ e in
    let half := 2 ^ (e - 1) in
    let q' := if r <? half then q
              else if half <? r then q + 1
              else if Z.even q then q else q + 1 in
    let v := q' * 2 ^ e in
    if 2 ^ 1024 <=? v then Raise OverflowError else Ok (Z.sgn t * v).

(** The integers that a double holds as they are. *)
Definition exact_float (t : Z) : Prop := float_of_int t = Ok t.

(** [sys.maxsize], the largest count that the builtin [len] returns (on
    a 64-bit build). *)
Definition sys_maxsize : Z := 2 ^ 63 - 1.

(** [t[i, j]] read back, [None] outside the array. *)
Definition cell (t : list (list Z)) (i j : nat) : option Z :=
  row ← t !! i; row !! j.

(** The argument of [__getitem__]: an integer or [slice(start, stop, step)]. *)
Inductive TaskIndex : Type :=
| Index (i : Z)
| Slice (start stop step : option Z).

(** An array of [r] rows of [c] cells each. *)
Definition shape (t : list (list Z)) (r c : nat) : Prop :=
  length t = r /\ Forall (fun row => length row = c) t.

End Py.

Import Py.

(** ** segmentation.py *)

Module Segmentation.

Section Filter.

(** A label map is stored on disk; [pixels path] stands for
    [np.array(Image.open(path)).reshape(-1)], the flat array of its
    pixel values. *)
Context {Path : Type}.
Variable pixels : Path -> list Z.

(** The test of one sample against one task (lines 141-148). *)
Definition filter_sample (mode : string) (labels all_labels : list Z)
    (task_id : nat) (t : list (list Z)) (ic : nat * list Z)
  : result (list (list Z)) :=
  let '(index, classes) := ic in
  if decide (mode = "overlap"%string) then
    if any (fun c => contains c labels) classes
    then np_setitem t index task_id 1
    else Ok t
  else if decide (mode = "disjoint"%string) then
    if any (fun c => contains c labels) classes
       && all (fun c => contains c all_labels) classes
    then np_setitem t index task_id 1
    else Ok t
  else Raise ValueError.

(** The body of the loop over the tasks (lines 136-150); the loop state
    is the matrix and [accumulated_inc]. *)
Definition filter_task (mode : string) (class_order : list Z)
    (indexes_to_classes : list (list Z))
    (st : list (list Z) * Z) (ti : nat * Z)
  : result (list (list Z) * Z) :=
  let '(t, accumulated_inc) := st in
  let '(task_id, inc) := ti in
  let labels := slice class_order accumulated_inc (accumulated_inc + inc) in
  let old_labels := slice_to class_order accumulated_inc in
  let all_labels := labels ++ old_labels ++ [0; 255] in
  t' ← for_each (filter_sample mode labels all_labels task_id) t
         (enumerate indexes_to_classes);
  Ok (t', accumulated_inc + inc).

Definition _filter_images (paths : list Path) (increments : list Z)
    (class_order : list Z) (mode : string) : result (list (list Z)) :=
  let indexes_to_classes := map (fun path => np_unique (pixels path)) paths in
  let t := np_zeros (length paths) (length increments) in
  let accumulated_inc := 0 in
  st ← for_each (filter_task mode class_order indexes_to_classes)
         (t, accumulated_inc) (enumerate increments);
  Ok st.1.

(** The slice of the class order that task [t] owns, computed as
    [_get_task_labels] does for one task (lines 96-98): it starts at the
    sum of the increments of the tasks before [t]. *)
Definition task_slice (class_order increments : list Z) (t : nat) : list Z :=
  let previous_inc := sum (slice_to increments (Z.of_nat t)) in
  match increments !! t with
  | Some inc => slice class_order previous_inc (previous_inc + inc)
  | None => []
  end.

(** The classes introduced by the tasks before [t]. *)
Definition earlier_classes (class_order increments : list Z) (t : nat)
  : list Z :=
  concat (map (task_slice class_order increments) (seq 0 t)).

(** The classes present in a sample, as [_filter_images] extracts them
    (line 129). *)
Definition sample_classes (path : Path) : list Z := np_unique (pixels path).

(** The two modes that [_filter_images] knows. *)
Definition known_mode (mode : string) : Prop :=
  mode = "overlap"%string \/ mode = "disjoint"%string.

(** The condition under which the loop body writes a 1. *)
Definition member (mode : string) (labels all_labels classes : list Z) : bool :=
  if decide (mode = "overlap"%string)
  then any (fun c => contains c labels) classes
  else any (fun c => contains c labels) classes
       && all (fun c => contains c all_labels) classes.

(** What the body of the task loop tests for a sample when
    [accumulated_inc] is [acc] and the increment is [inc]. *)
Definition task_test (mode : string) (class_order : list Z) (acc inc : Z)
    (classes : list Z) : bool :=
  member mode (slice class_order acc (acc + inc))
         (slice class_order acc (acc + inc)
            ++ slice_to class_order acc ++ [0; 255])
         classes.

End Filter.

(** *** The scenario object *)

(** [increment: Union[List[int], int]] *)
Inductive Increment : Type :=
| IncInt (n : Z)
| IncList (l : list Z).

(** [Union[int, List[int]]], the argument of [_get_task_labels]. *)
Inductive TaskIndexes : Type :=
| One (t : Z)
| Many (ts : list Z).

Section Scenario.

Context {X Path DataType Trsf : Type}.
Variable pixels : Path -> list Z.

(** What the scenario reads of [cl_dataset]. [get_data] gives the
    samples and the paths of their label maps. *)
Record ContinuumDataset : Type := {
  get_data : list X * list Path;
  train : bool;
  data_type : DataType
}.

(** The attributes of a [SegmentationClassIncremental] instance.
    [class_order] is [None] when the caller supplied none;
    [_increments] and [dataset] are filled by [_setup]. *)
Record Scenario : Type := {
  cl_dataset : ContinuumDataset;
  mode : string;
  test_background : bool;
  _nb_classes : Z;
  increment : Increment;
  initial_increment : Z;
  trsf : list Trsf;
  class_order : option (list Z);
  _increments : list Z;
  dataset : list X * list Path * list (list Z)
}.

Record TaskSet : Type := {
  ts_x : list X;
  ts_y : list Path;
  ts_t : list (list Z);
  ts_trsf : list Trsf;
  target_trsf : list Z -> list Z;
  ts_data_type : DataType
}.

(** The two collaborators inherited from the base scenario, which are
    not part of this file.  [_define_increments] resolves the increment
    specification; [_select_data_by_task] reads the scenario and returns
    the selected [(x, y, t)] and the resolved task index(es). *)
Variable _define_increments : Increment -> Z -> list Z -> result (list Z).
Variable _select_data_by_task :
  Scenario -> TaskIndex ->
  result (list X * list Path * list (list Z) * TaskIndexes).

(** [self.class_order[a:b]] and [self.class_order.index(v)] on an
    attribute that may still be [None]. *)
Definition class_order_slice (self : Scenario) (a b : Z) : result (list Z) :=
  match class_order self with
  | Some co => Ok (slice co a b)
  | None => Raise TypeError
  end.

Definition class_order_index (self : Scenario) (v : Z) : result Z :=
  match class_order self with
  | Some co => index co v
  | None => Raise AttributeError
  end.

(** The body of the loop of [_get_task_labels] (lines 96-99). *)
Definition add_task_labels (self : Scenario) (labels : gset Z) (t : Z)
  : result (gset Z) :=
  let previous_inc := sum (slice_to (_increments self) t) in
  inc ← getitem (_increments self) t;
  new ← class_order_slice self previous_inc (previous_inc + inc);
  Ok (labels ∪ list_to_set new).

Definition _get_task_labels (self : Scenario) (task_indexes : TaskIndexes)
  : result (list Z) :=
  let task_indexes :=
    match task_indexes with One t => [t] | Many ts => ts end in
  labels ← for_each (add_task_labels self) ∅ task_indexes;
  Ok (elements labels).

Definition _setup (self : Scenario) (nb_tasks : Z) : result (Scenario * Z) :=
  let '(x, y) := get_data (cl_dataset self) in
  let class_order' := range 1 (_nb_classes self + 1) in
  increments ←
    _define_increments (increment self) (initial_increment self) class_order';
  t ← _filter_images pixels y increments class_order' (mode self);
  Ok ({| cl_dataset := cl_dataset self;
         mode := mode self;
         test_background := test_background self;
         _nb_classes := _nb_classes self;
         increment := increment self;
         initial_increment := initial_increment self;
         trsf := trsf self;
         class_order := Some class_order';
         _increments := increments;
         dataset := (x, y, t) |},
      len increments).

(** [{label: self.class_order.index(label) for label in labels}] *)
Definition invert_labels (self : Scenario) (labels : list Z)
  : result (gmap Z Z) :=
  for_each (fun d label => i ← class_order_index self label;
                           Ok (<[label := i]> d))
           ∅ labels.

(** [inverted_order.get(v, 0)] *)
Definition dict_get (d : gmap Z Z) (v dflt : Z) : Z := default dflt (d !! v).

(** [seg_map.apply_(f)] on the flat label map. *)
Definition apply_ (f : Z -> Z) (seg_map : list Z) : list Z := f <$> seg_map.

Definition __getitem__ (self : Scenario) (task_index : TaskIndex)
  : result TaskSet :=
  _ ← match task_index with
      | Slice _ _ (Some _) => Raise ValueError
      | _ => Ok ()
      end;
  '(x, y, t, task_index) ← _select_data_by_task self task_index;
  label_trsf ←
    (if decide (mode self = "overlap"%string ∨ mode self = "disjoint"%string)
     then
       labels ← _get_task_labels self task_index;
       inverted_order ← invert_labels self labels;
       let inverted_order :=
         if negb (train (cl_dataset self)) then
           <[255 := 255]>
             (<[0 := if test_background self then 0 else 255]> inverted_order)
         else inverted_order in
       Ok (Some (apply_ (fun v => dict_get inverted_order v 0)))
     else Ok None);
  match label_trsf with
  | Some label_trsf =>
      Ok {| ts_x := x; ts_y := y; ts_t := t; ts_trsf := trsf self;
            target_trsf := label_trsf;
            ts_data_type := data_type (cl_dataset self) |}
  | None => Raise UnboundLocalError
  end.

(** *** Notions used to state the properties of task access *)

(** The labels of one task: its slice of the class order. *)
Definition labels_of (co incs : list Z) (t c : Z) : Prop :=
  exists inc, getitem incs t = Ok inc
              /\ c ∈ slice co (sum (slice_to incs t))
                       (sum (slice_to incs t) + inc).

(** The tasks that a resolved request names. *)
Definition task_list (task_indexes : TaskIndexes) : list Z :=
  match task_indexes with One t => [t] | Many ts => ts end.

(** The requests that [__getitem__] does not refuse at once. *)
Definition unstepped (task_index : TaskIndex) : Prop :=
  match task_index with
  | Slice _ _ (Some _) => False
  | _ => True
  end.

(** The dictionary as [__getitem__] completes it outside train mode. *)
Definition completed (self : Scenario) (d : gmap Z Z) : gmap Z Z :=
  if negb (train (cl_dataset self)) then
    <[255 := 255]> (<[0 := if test_background self then 0 else 255]> d)
  else d.

End Scenario.

Section NbClasses.

Context {X Path DataType Trsf : Type} `{EqDecision Path}.

(** The property [nb_classes] (lines 56-59):
    [len(np.unique(self.dataset[1]))].  [dataset[1]] is [y], the paths
    of the label maps; [np.unique] keeps one of each value, and sorts
    them, which the count does not see. *)
Definition nb_classes (self : @Scenario X Path DataType Trsf) : Z :=
  len (remove_dups (dataset self).1.2).

End NbClasses.

(** *** The collaborators of the base scenario *)

(** Modelled from the spec: [_define_increments] is a method of the base
    scenario, which is not in this file.  The spec describes it as
    turning "an increment specification (a scalar class-count-per-task
    or an explicit list, plus an optional distinct first-task size) into
    an ordered list of per-task class counts summing to the total class
    count".  A specification that cannot sum to the class count is
    refused. *)
Definition define_increments (increment : Increment) (initial_increment : Z)
    (class_order : list Z) : result (list Z) :=
  match increment with
  | IncList l =>
      if sum l =? len class_order then Ok l else Raise ValueError
  | IncInt n =>
      let rest := len class_order - initial_increment in
      if (0 <? n) && (0 <=? rest) && (rest mod n =? 0) then
        Ok ((if initial_increment =? 0 then [] else [initial_increment])
              ++ replicate (Z.to_nat (rest / n)) n)
      else Raise ValueError
  end.

(** Modelled from the spec: [_select_data_by_task] is a method of the
    base scenario, which is not in this file.  The spec has it resolve
    "the contributing samples via the external data-selection
    collaborator, keyed by the membership matrix" together with the task
    index(es): the samples kept are those whose row of the matrix has a
    1 in the column of a selected task.  A slice selects the tasks from
    its start (default 0) up to its stop (default: the number of
    tasks). *)
Definition select_data_by_task {X Path DataType Trsf : Type}
    (self : @Scenario X Path DataType Trsf) (task_index : TaskIndex)
  : result (list X * list Path * list (list Z) * TaskIndexes) :=
  let '(x, y, t) := dataset self in
  let tasks :=
    match task_index with
    | Index i => [i]
    | Slice start stop _ =>
        range (default 0 start) (default (len (_increments self)) stop)
    end in
  let keep (row : list Z) : bool :=
    any (fun task => bool_decide (0 <= task)
                     && bool_decide (row !! Z.to_nat task = Some 1)) tasks in
  let pick {A : Type} (l : list A) : list A :=
    map fst (List.filter (fun p => keep (snd p)) (zip l t)) in
  Ok (pick x, pick y, List.filter keep t,
      match task_index with
      | Index i => One i
      | Slice _ _ _ => Many tasks
      end).


(** *** Fixtures *)

(** A fixture: two tasks of one class each in the order [1, 2], and one
    label map whose pixels are 1, 2, 2, 1.  A path is identified with
    the pixels of its label map. *)
Definition fixture_paths : list (list Z) := [[1; 2; 2; 1]].
Definition fixture_pixels (path : list Z) : list Z := path.

(** A dataset whose label maps are given by their pixels, and a
    scenario over it as the constructor leaves it before [_setup]. *)
Definition fixture_dataset (train : bool) (label_maps : list (list Z))
  : @ContinuumDataset unit (list Z) unit :=
  {| get_data := (map (fun _ => tt) label_maps, label_maps);
     train := train;
     data_type := tt |}.

Definition fixture_scenario (train test_background : bool) (nb_classes : Z)
    (increments : list Z) (class_order : option (list Z))
    (label_maps : list (list Z)) : @Scenario unit (list Z) unit unit :=
  {| cl_dataset := fixture_dataset train label_maps;
     mode := "overlap";
     test_background := test_background;
     _nb_classes := nb_classes;
     increment := IncList increments;
     initial_increment := 0;
     trsf := [];
     class_order := class_order;
     _increments := [];
     dataset := ([], [], []) |}.

(** The scenario of three classes in two tasks, of one and two classes,
    after [_setup], in test mode without background. *)
Definition three_classes : @Scenario unit (list Z) unit unit :=
  {| cl_dataset := fixture_dataset false [[1; 0]; [2; 3]; [1; 3; 255]];
     mode := "overlap";
     test_background := false;
     _nb_classes := 3;
     increment := IncList [1; 2];
     initial_increment := 0;
     trsf := [];
     class_order := Some [1; 2; 3];
     _increments := [1; 2];
     dataset := ([tt; tt; tt], [[1; 0]; [2; 3]; [1; 3; 255]],
                 [[1; 0]; [0; 1]; [1; 1]]) |}.

(** A scenario of 255 classes in one task, after [_setup], in test
    mode: the class order reaches the identifier 255. *)
Definition many_classes : @Scenario unit (list Z) unit unit :=
  {| cl_dataset := fixture_dataset false [];
     mode := "overlap";
     test_background := true;
     _nb_classes := 255;
     increment := IncList [255];
     initial_increment := 0;
     trsf := [];
     class_order := Some (range 1 256);
     _increments := [255];
     dataset := ([], [], []) |}.

End Segmentation.

(** ** transformation_incremental.py *)

Module Transformation.

Section Scenario.

Context {X DataType Callable : Type}.

(** The attributes of a [TransformationIncremental] instance:
    [trsf_transforms] is [self.trsf.transforms], the base chain;
    [dataset] is [(x, y, t)], [t] being the task-index array;
    [_nb_tasks] is what [len(self)] returns. *)
Record Scenario : Type := {
  data_type : DataType;
  trsf_transforms : list Callable;
  inc_trsf : list (list Callable);
  _nb_tasks : Z;
  dataset : list X * list Z * list Z
}.

(** The task set built from the unpacked [train] tuple, the composed
    transform and the data type; [transforms.Compose] of a list is kept
    as that list, in order. *)
Record TaskSet : Type := {
  ts_train : list X * list Z * list Z;
  ts_trsf : list Callable;
  ts_data_type : DataType
}.

(** The data selection of the base scenario, which is not part of this
    file: it reads the scenario and returns the selected [(x, y, t)]. *)
Variable _select_data_by_task :
  Scenario -> Z -> result (list X * list Z * list Z).

Definition __len__ (self : Scenario) : Z := _nb_tasks self.

(** All tasks have all labels, only the transformation changes. *)
Definition get_task_index (nb_tasks : Z) (y : list Z) : list Z := y.

Definition get_task_transformation (self : Scenario) (task_index : Z)
  : result (list Callable) :=
  chain ← getitem (inc_trsf self) task_index;
  Ok (chain ++ trsf_transforms self).

(** The builtin [len(self)]: it calls [__len__], and refuses a negative
    count with [ValueError] and a count beyond [sys.maxsize] with
    [OverflowError]. *)
Definition len_self (self : Scenario) : result Z :=
  let n := __len__ self in
  if n <? 0 then Raise ValueError
  else if sys_maxsize <? n then Raise OverflowError
  else Ok n.

(** [np.ones(n) * task_index] (line 52): an array of doubles; the index
    is converted to a double, which rounds it beyond 53 bits and raises
    [OverflowError] beyond the doubles. *)
Definition np_ones_times (n : nat) (task_index : Z) : result (list Z) :=
  v ← float_of_int task_index;
  Ok (replicate n (1 * v)).

(** [self.dataset = (self.dataset[0], self.dataset[1], new_t)]
    (line 53). *)
Definition set_task_indexes (self : Scenario) (new_t : list Z) : Scenario :=
  {| data_type := data_type self;
     trsf_transforms := trsf_transforms self;
     inc_trsf := inc_trsf self;
     _nb_tasks := _nb_tasks self;
     dataset := ((dataset self).1.1, (dataset self).1.2, new_t) |}.

(** [update_task_indexes] (lines 51-53): when line 52 raises, nothing
    is assigned. *)
Definition update_task_indexes (self : Scenario) (task_index : Z)
  : result Scenario :=
  new_t ← np_ones_times (length (dataset self).1.2) task_index;
  Ok (set_task_indexes self new_t).

(** [while task_index < 0: task_index += len(self)] (lines 67-68).
    [None] when the loop is still running after [fuel] iterations;
    otherwise the index reached, or the exception of [len(self)]. *)
Fixpoint wrap_negative (fuel : nat) (self : Scenario) (task_index : Z)
  : option (result Z) :=
  if task_index <? 0 then
    match fuel with
    | O => None
    | S fuel' =>
        match len_self self with
        | Ok n => wrap_negative fuel' self (task_index + n)
        | Raise e => Some (Raise e)
        end
    end
  else Some (Ok task_index).

(** Lines 66-68: the index that an integer request is resolved to. *)
Definition resolve_index (fuel : nat) (self : Scenario) (task_index : Z)
  : option (result Z) :=
  if task_index <? 0 then wrap_negative fuel self task_index
  else Some (Ok task_index).

(** [__getitem__] mutates [self] and may raise before or afterwards: it
    returns the scenario as it is left together with the outcome, and
    [None] when [fuel] is too small for the loop above. *)
Definition __getitem__ (fuel : nat) (self : Scenario) (task_index : TaskIndex)
  : option (Scenario * result TaskSet) :=
  match task_index with
  | Slice _ _ _ => Some (self, Raise ValueError)
  | Index task_index =>
      match resolve_index fuel self task_index with
      | None => None
      | Some (Raise e) => Some (self, Raise e)
      | Some (Ok task_index) =>
          match update_task_indexes self task_index with
          | Raise e => Some (self, Raise e)
          | Ok self =>
              Some (self,
                    train ← _select_data_by_task self task_index;
                    trsf ← get_task_transformation self task_index;
                    Ok {| ts_train := train; ts_trsf := trsf;
                          ts_data_type := data_type self |})
          end
      end
  end.

(** The task-index array and the number of samples of a scenario. *)
Definition task_indexes (self : Scenario) : list Z := (dataset self).2.
Definition nb_samples (self : Scenario) : nat := length (dataset self).1.2.

(** The scenario that the constructor accepts: one transformation chain
    per task (lines 38-39). *)
Definition one_chain_per_task (self : Scenario) : Prop :=
  __len__ self = len (inc_trsf self).

(** Two scenarios that differ at most by their task-index array. *)
Definition same_but_task_indexes (s s' : Scenario) : Prop :=
  (dataset s').1.1 = (dataset s).1.1
  /\ (dataset s').1.2 = (dataset s).1.2
  /\ inc_trsf s' = inc_trsf s
  /\ trsf_transforms s' = trsf_transforms s
  /\ _nb_tasks s' = _nb_tasks s
  /\ data_type s' = data_type s.

End Scenario.

Section Init.

Context {X DataType Callable ClDataset : Type}.

(** The constructor of the base scenario and its [_setup] are not in
    this file: [super_init] gives the instance as the base constructor
    leaves it, or raises; [_setup] may change the instance and returns
    the number of tasks. *)
Variable super_init :
  ClDataset -> Z -> option (list Callable) ->
  result (@Scenario X DataType Callable).
Variable _setup :
  @Scenario X DataType Callable -> Z ->
  result (@Scenario X DataType Callable * Z).

(** The constructor (lines 25-42); [None] is Python's [None]. *)
Definition __init__ (cl_dataset : ClDataset) (nb_tasks : Z)
    (incremental_transformations : option (list (list Callable)))
    (base_transformations : option (list Callable))
  : result (@Scenario X DataType Callable) :=
  self ← super_init cl_dataset nb_tasks base_transformations;
  match incremental_transformations with
  | None => Raise ValueError
  | Some transformations =>
      if decide (nb_tasks <> len transformations) then Raise ValueError
      else
        let self :=
          {| data_type := data_type self;
             trsf_transforms := trsf_transforms self;
             inc_trsf := transformations;
             _nb_tasks := _nb_tasks self;
             dataset := dataset self |} in
        '(self, n) ← _setup self nb_tasks;
        Ok {| data_type := data_type self;
              trsf_transforms := trsf_transforms self;
              inc_trsf := inc_trsf self;
              _nb_tasks := n;
              dataset := dataset self |}
  end.

End Init.

(** Modelled from the spec: [_select_data_by_task] is a method of the
    base scenario, which is not in this file.  The spec has the access
    select the "matching samples via the (now-mutated) task-index
    array": the samples kept are those whose entry of the array is the
    task index. *)
Definition select_data_by_task {X DataType Callable : Type}
    (self : @Scenario X DataType Callable) (task_index : Z)
  : result (list X * list Z * list Z) :=
  let '(x, y, t) := dataset self in
  let pick {A : Type} (l : list A) : list A :=
    map fst (List.filter (fun p => snd p =? task_index) (zip l t)) in
  Ok (pick x, pick y, List.filter (fun v => v =? task_index) t).


(** *** Fixture *)

(** Four tasks over three samples; a transformation is named by a
    number, task [k] has the chain [[10 + k]] and the base chain is
    [[7]].  The task-index array starts as the class labels. *)
Definition four_tasks : @Scenario nat unit nat :=
  {| data_type := tt;
     trsf_transforms := [7%nat];
     inc_trsf := [[10%nat]; [11%nat]; [12%nat]; [13%nat]];
     _nb_tasks := 4;
     dataset := ([100%nat; 101%nat; 102%nat], [5; 6; 5], [5; 6; 5]) |}.

Definition four_tasks_at (t : Z) : @Scenario nat unit nat :=
  set_task_indexes four_tasks [t; t; t].

(** Stand-ins for the base constructor and its [_setup], to build
    [four_tasks]: the base constructor stores the base chain and the
    dataset, [_setup] leaves the instance alone and returns the number
    of tasks it was given. *)
Definition fixture_super_init (cl_dataset : list nat * list Z * list Z)
    (nb_tasks : Z) (base_transformations : option (list nat))
  : result (@Scenario nat unit nat) :=
  Ok {| data_type := tt;
        trsf_transforms := default [] base_transformations;
        inc_trsf := [];
        _nb_tasks := 0;
        dataset := cl_dataset |}.

Definition fixture_setup (self : @Scenario nat unit nat) (nb_tasks : Z)
  : result (@Scenario nat unit nat * Z) :=
  Ok (self, nb_tasks).

End Transformation.

(** * Properties *)

(** ** Facts about the Python prelude *)

Module PyFacts.

Lemma bind_Ok_l {A B : Type} (a : A) (f : A -> result B) : Ok a ≫= f = f a.
Proof. reflexivity. Qed.

Lemma for_each_cons {A S : Type} (body : S -> A -> result S) s a l :
  for_each body s (a :: l) = body s a ≫= fun s' => for_each body s' l.
Proof. reflexivity. Qed.

Lemma lookup_map {A B : Type} (f : A -> B) (l : list A) (i : nat) (a : A) :
  l !! i = Some a -> map f l !! i = Some (f a).
Proof.
  revert i. induction l as [|x l IH]; intros [|i] H; simpl in *;
    try discriminate.
  - injection H as ->. reflexivity.
  - apply IH. exact H.
Qed.

Lemma elem_of_insert_unique (c v : Z) (l : list Z) :
  c ∈ insert_unique v l <-> c = v \/ c ∈ l.
Proof.
  induction l as [|x l IH]; simpl.
  - rewrite list_elem_of_singleton, elem_of_nil. tauto.
  - destruct (Z.ltb_spec v x).
    + rewrite elem_of_cons. reflexivity.
    + destruct (Z.eqb_spec v x) as [->|Hne].
      * rewrite elem_of_cons. tauto.
      * rewrite !elem_of_cons, IH. tauto.
Qed.

(** [np.unique] keeps exactly the values of the array. *)
Lemma elem_of_np_unique (c : Z) (a : list Z) : c ∈ np_unique a <-> c ∈ a.
Proof.
  induction a as [|x a IH]; simpl.
  - reflexivity.
  - rewrite elem_of_insert_unique, elem_of_cons, IH. reflexivity.
Qed.

Lemma any_contains (classes labels : list Z) :
  any (fun c => contains c labels) classes = true
  <-> exists c, c ∈ classes /\ c ∈ labels.
Proof.
  unfold any, contains. induction classes as [|x cs IH]; simpl.
  - split; [discriminate | intros (c & Hc & _); inversion Hc].
  - rewrite orb_true_iff, IH, bool_decide_eq_true. split.
    + intros [Hx | (c & Hc & Hl)].
      * exists x. split; [left | exact Hx].
      * exists c. split; [right; exact Hc | exact Hl].
    + intros (c & Hc & Hl). apply elem_of_cons in Hc as [->|Hc].
      * left. exact Hl.
      * right. exists c. split; assumption.
Qed.

Lemma all_contains (classes labels : list Z) :
  all (fun c => contains c labels) classes = true
  <-> forall c, c ∈ classes -> c ∈ labels.
Proof.
  unfold all, contains. induction classes as [|x cs IH]; simpl.
  - split; [intros _ c Hc; inversion Hc | reflexivity].
  - rewrite andb_true_iff, IH, bool_decide_eq_true. split.
    + intros [Hx Hcs] c Hc. apply elem_of_cons in Hc as [->|Hc]; auto.
    + intros H. split; [apply H; left | intros c Hc; apply H; right; exact Hc].
Qed.

(** Slices with bounds inside Python's non-negative range. *)
Lemma slice_to_nat {A : Type} (l : list A) (n : nat) :
  slice_to l (Z.of_nat n) = take n l.
Proof.
  unfold slice_to, slice, slice_bound, len.
  change (0 <? 0) with false. cbv iota.
  destruct (Z.ltb_spec (Z.of_nat n) 0); [lia|].
  replace (Z.min 0 (Z.of_nat (length l))) with 0 by lia.
  rewrite Z2Nat.inj_0, drop_0.
  destruct (decide (n <= length l)%nat).
  - f_equal. lia.
  - rewrite Z.min_r by lia. rewrite !firstn_all2 by lia. reflexivity.
Qed.

Lemma slice_nonneg {A : Type} (l : list A) (a i : Z) :
  0 <= a -> 0 <= i ->
  slice l a (a + i) = take (Z.to_nat i) (drop (Z.to_nat a) l).
Proof.
  intros Ha Hi. unfold slice, slice_bound, len.
  destruct (Z.ltb_spec a 0); [lia|]. destruct (Z.ltb_spec (a + i) 0); [lia|].
  destruct (decide (a <= Z.of_nat (length l))).
  - rewrite (Z.min_l a) by lia.
    destruct (decide (a + i <= Z.of_nat (length l))).
    + rewrite Z.min_l by lia. f_equal. lia.
    + rewrite Z.min_r by lia.
      rewrite !firstn_all2; [reflexivity | |]; rewrite length_drop; lia.
  - rewrite !Z.min_r by lia.
    rewrite !drop_ge by lia. rewrite !firstn_nil. reflexivity.
Qed.

Lemma slice_elem_of {A : Type} (l : list A) (a b : Z) (x : A) :
  x ∈ slice l a b -> x ∈ l.
Proof.
  unfold slice. intros H.
  eapply (sublist_subseteq _ l); [|exact H].
  etrans; [apply sublist_take | apply sublist_drop].
Qed.

Lemma sum_app (l1 l2 : list Z) : sum (l1 ++ l2) = sum l1 + sum l2.
Proof. unfold sum. induction l1; simpl; lia. Qed.

Lemma sum_take_S (l : list Z) (j : nat) (x : Z) :
  l !! j = Some x -> sum (take (S j) l) = sum (take j l) + x.
Proof.
  intros H. rewrite (take_S_r _ _ _ H), sum_app. unfold sum. simpl. lia.
Qed.

Lemma sum_nonneg (l : list Z) : Forall (fun i => 0 <= i) l -> 0 <= sum l.
Proof. unfold sum. induction 1; simpl; lia. Qed.

(** Reading back a cell after [t[i, j] = v]. *)
Lemma cell_np_setitem (t t' : list (list Z)) (i j : nat) (v : Z) :
  np_setitem t i j v = Ok t' ->
  forall i' j', cell t' i' j'
                = if decide (i' = i /\ j' = j) then Some v else cell t i' j'.
Proof.
  unfold np_setitem. destruct (t !! i) as [row|] eqn:Hrow; [|discriminate].
  destruct (decide (j < length row)%nat) as [Hj|]; [|discriminate].
  intros [= <-] i' j'. unfold cell.
  pose proof (lookup_lt_Some _ _ _ Hrow) as Hi.
  destruct (decide (i' = i)) as [->|Hne].
  - rewrite list_lookup_insert_eq by exact Hi. simpl.
    destruct (decide (j' = j)) as [->|Hnej].
    + rewrite list_lookup_insert_eq by exact Hj.
      rewrite decide_True by auto. reflexivity.
    + rewrite list_lookup_insert_ne by auto.
      rewrite decide_False by tauto. rewrite Hrow. reflexivity.
  - rewrite list_lookup_insert_ne by auto.
    rewrite decide_False by tauto. reflexivity.
Qed.

Lemma np_setitem_shape (t : list (list Z)) (r c i j : nat) (v : Z) :
  shape t r c -> (i < r)%nat -> (j < c)%nat ->
  exists t', np_setitem t i j v = Ok t' /\ shape t' r c.
Proof.
  intros [Hr Hc] Hi Hj. unfold np_setitem.
  destruct (lookup_lt_is_Some_2 t i ltac:(lia)) as [row Hrow].
  rewrite Hrow.
  assert (length row = c) as Hrc
    by (eapply (proj1 (Forall_forall _ _) Hc), list_elem_of_lookup_2, Hrow).
  rewrite decide_True by lia. eexists. split; [reflexivity|].
  split.
  - rewrite length_insert. exact Hr.
  - apply Forall_insert; [exact Hc|]. rewrite length_insert. exact Hrc.
Qed.

Lemma np_zeros_shape (r c : nat) : shape (np_zeros r c) r c.
Proof.
  unfold shape, np_zeros. split.
  - apply length_replicate.
  - apply Forall_replicate. apply length_replicate.
Qed.

Lemma cell_np_zeros (r c i j : nat) :
  (i < r)%nat -> (j < c)%nat -> cell (np_zeros r c) i j = Some 0.
Proof.
  intros Hi Hj. unfold cell, np_zeros.
  rewrite lookup_replicate_2 by exact Hi. simpl.
  apply lookup_replicate_2. exact Hj.
Qed.

(** Up to [2 ^ 53] in magnitude an [int] is its own double. *)
Lemma exact_float_small (t : Z) : Z.abs t <= 2 ^ 53 -> exact_float t.
Proof.
  intros Ht. unfold exact_float.
  change (2 ^ 53) with 9007199254740992 in Ht.
  destruct (decide (Z.abs t = 9007199254740992)) as [Heq|Hne].
  - assert (t = 9007199254740992 \/ t = -9007199254740992) as [->| ->]
      by lia; vm_compute; reflexivity.
  - unfold float_of_int.
    assert (Z.log2 (Z.abs t) - 52 <= 0) as He.
    { destruct (decide (Z.abs t = 0)) as [->|Hz]; [simpl; lia|].
      assert (Z.log2 (Z.abs t) < 53); [|lia].
      apply Z.log2_lt_pow2; [lia|].
      change (2 ^ 53) with 9007199254740992. lia. }
    apply Z.leb_le in He. rewrite He. reflexivity.
Qed.

End PyFacts.

(** ** The membership matrix of [_filter_images] *)

Module SegmentationFacts.

Import PyFacts Segmentation.

Section Filter.

Context {Path : Type}.
Variable pixels : Path -> list Z.

Lemma filter_sample_step mode labels all_labels t r c i j classes :
  known_mode mode -> shape t r c -> (i < r)%nat -> (j < c)%nat ->
  exists t',
    filter_sample mode labels all_labels j t (i, classes) = Ok t'
    /\ shape t' r c
    /\ forall i' j',
        cell t' i' j'
        = if bool_decide (i' = i /\ j' = j)
             && member mode labels all_labels classes
          then Some 1 else cell t i' j'.
Proof.
  intros Hmode Hshape Hi Hj.
  destruct (np_setitem_shape t r c i j 1 Hshape Hi Hj) as (t1 & Hset & Hshape1).
  pose proof (cell_np_setitem _ _ _ _ _ Hset) as Hcell.
  assert (forall b : bool,
    exists t', (if b then np_setitem t i j 1 else Ok t) = Ok t'
      /\ shape t' r c
      /\ forall i' j', cell t' i' j'
           = if bool_decide (i' = i /\ j' = j) && b
             then Some 1 else cell t i' j') as Hboth.
  { intros [|].
    - exists t1. repeat split; try apply Hshape1; [exact Hset|].
      intros i' j'. rewrite Hcell, andb_true_r.
      destruct (decide (i' = i /\ j' = j)) as [H|H].
      + rewrite bool_decide_eq_true_2 by exact H. reflexivity.
      + rewrite bool_decide_eq_false_2 by exact H. reflexivity.
    - exists t. repeat split; try apply Hshape.
      intros i' j'. rewrite andb_false_r. reflexivity. }
  unfold filter_sample, member.
  destruct (decide (mode = "overlap"%string)) as [Ho|Hno].
  - apply Hboth.
  - destruct (decide (mode = "disjoint"%string)) as [Hd|Hnd].
    + apply Hboth.
    + destruct Hmode; contradiction.
Qed.

(** The loop over the samples, for one task. *)
Lemma samples_loop mode labels all_labels r c j :
  known_mode mode -> (j < c)%nat ->
  forall cls k t,
    shape t r c -> (k + length cls <= r)%nat ->
    exists t',
      for_each (filter_sample mode labels all_labels j) t
               (enumerate_from k cls) = Ok t'
      /\ shape t' r c
      /\ (forall i' j',
            j' <> j \/ (i' < k)%nat \/ (k + length cls <= i')%nat ->
            cell t' i' j' = cell t i' j')
      /\ (forall n classes,
            cls !! n = Some classes ->
            cell t' (k + n)%nat j
            = if member mode labels all_labels classes
              then Some 1 else cell t (k + n)%nat j).
Proof.
  intros Hmode Hj. induction cls as [|x cls IH]; intros k t Hshape Hk.
  - exists t. simpl. repeat split; try apply Hshape.
    intros n classes H. rewrite lookup_nil in H. discriminate.
  - simpl in Hk. cbn [enumerate_from]. rewrite for_each_cons.
    destruct (filter_sample_step mode labels all_labels t r c k j x
                Hmode Hshape ltac:(lia) Hj) as (t1 & Hstep & Hshape1 & Hcell1).
    rewrite Hstep, bind_Ok_l.
    destruct (IH (S k) t1 Hshape1 ltac:(lia)) as (t' & Hloop & Hshape' & Hout & Hin).
    exists t'. split; [exact Hloop|]. split; [exact Hshape'|]. split.
    + intros i' j' Hcase. simpl in Hcase. rewrite Hout by lia. rewrite Hcell1.
      rewrite bool_decide_eq_false_2 by lia. reflexivity.
    + intros [|n] classes Hn; simpl in Hn.
      * injection Hn as ->. rewrite Hout by lia. rewrite Hcell1.
        rewrite bool_decide_eq_true_2 by lia. reflexivity.
      * replace (k + S n)%nat with (S k + n)%nat by lia.
        rewrite (Hin n classes Hn), Hcell1.
        rewrite bool_decide_eq_false_2 by lia. reflexivity.
Qed.

(** The loop over the tasks. *)
Lemma tasks_loop mode class_order itc r c :
  known_mode mode -> length itc = r ->
  forall incs j0 t acc,
    shape t r c -> (j0 + length incs <= c)%nat ->
    exists t',
      for_each (filter_task mode class_order itc) (t, acc)
               (enumerate_from j0 incs) = Ok (t', acc + sum incs)
      /\ shape t' r c
      /\ (forall i' j',
            (j' < j0)%nat \/ (j0 + length incs <= j')%nat ->
            cell t' i' j' = cell t i' j')
      /\ (forall m inc n classes,
            incs !! m = Some inc -> itc !! n = Some classes ->
            cell t' n (j0 + m)%nat
            = if task_test mode class_order (acc + sum (take m incs)) inc
                           classes
              then Some 1 else cell t n (j0 + m)%nat).
Proof.
  intros Hmode Hitc. induction incs as [|x incs IH]; intros j0 t acc Hshape Hj0.
  - exists t. cbn [enumerate_from for_each].
    replace (acc + sum []) with acc by (unfold sum; simpl; lia).
    split; [reflexivity|]. split; [exact Hshape|]. split; [reflexivity|].
    intros m inc n classes H. rewrite lookup_nil in H. discriminate.
  - simpl in Hj0. cbn [enumerate_from]. rewrite for_each_cons.
    change (filter_task mode class_order itc (t, acc) (j0, x))
      with (for_each (filter_sample mode (slice class_order acc (acc + x))
                        (slice class_order acc (acc + x)
                           ++ slice_to class_order acc ++ [0; 255]) j0)
                     t (enumerate_from 0 itc)
            ≫= fun t' => Ok (t', acc + x)).
    destruct (samples_loop mode (slice class_order acc (acc + x))
                (slice class_order acc (acc + x)
                   ++ slice_to class_order acc ++ [0; 255])
                r c j0 Hmode ltac:(lia) itc 0%nat t Hshape ltac:(lia))
      as (t1 & Hloop1 & Hshape1 & Hout1 & Hin1).
    rewrite Hloop1, !bind_Ok_l.
    destruct (IH (S j0) t1 (acc + x) Hshape1 ltac:(lia))
      as (t' & Hloop & Hshape' & Hout & Hin).
    exists t'. split.
    { rewrite Hloop. do 2 f_equal. unfold sum. simpl. lia. }
    split; [exact Hshape'|]. split.
    + intros i' j' Hcase. simpl in Hcase. rewrite Hout by lia. apply Hout1. lia.
    + intros [|m] inc n classes Hm Hn; simpl in Hm.
      * injection Hm as ->. rewrite Hout by lia.
        replace (j0 + 0)%nat with j0 by lia.
        replace (acc + sum (take 0 (inc :: incs))) with acc
          by (unfold sum; simpl; lia).
        apply (Hin1 n classes Hn).
      * replace (j0 + S m)%nat with (S j0 + m)%nat by lia.
        rewrite (Hin m inc n classes Hm Hn).
        replace (acc + x + sum (take m incs))
          with (acc + sum (take (S m) (x :: incs)))
          by (unfold sum; simpl; lia).
        rewrite (Hout1 n (S j0 + m)%nat) by lia. reflexivity.
Qed.

(** [_filter_images] returns for the two modes, and every cell of the
    matrix is decided by the test of its task on its sample. *)
Lemma filter_images_cells (paths : list Path) increments class_order mode :
  known_mode mode ->
  exists t,
    _filter_images pixels paths increments class_order mode = Ok t
    /\ shape t (length paths) (length increments)
    /\ forall i j path inc,
        paths !! i = Some path -> increments !! j = Some inc ->
        cell t i j
        = Some (if task_test mode class_order
                     (sum (slice_to increments (Z.of_nat j))) inc
                     (sample_classes pixels path)
                then 1 else 0).
Proof.
  intros Hmode. unfold _filter_images, enumerate.
  destruct (tasks_loop mode class_order
              (map (fun path => np_unique (pixels path)) paths)
              (length paths) (length increments) Hmode
              ltac:(apply length_map) increments 0%nat
              (np_zeros (length paths) (length increments)) 0
              (np_zeros_shape _ _) ltac:(lia))
    as (t & Hloop & Hshape & _ & Hin).
  exists t. rewrite Hloop. simpl. split; [reflexivity|]. split; [exact Hshape|].
  intros i j path inc Hi Hj.
  assert (map (fun path => np_unique (pixels path)) paths !! i
          = Some (sample_classes pixels path)) as Hcls
    by (apply (lookup_map (fun path => np_unique (pixels path))), Hi).
  specialize (Hin j inc i _ Hj Hcls).
  rewrite Nat.add_0_l, Z.add_0_l in Hin.
  rewrite Hin, slice_to_nat.
  rewrite cell_np_zeros by (eauto using lookup_lt_Some).
  destruct (task_test _ _ _ _ _); reflexivity.
Qed.

(** The slice that the loop of [_filter_images] uses for task [j] is
    the one [_get_task_labels] computes. *)
Lemma task_slice_lookup class_order increments j inc :
  increments !! j = Some inc ->
  task_slice class_order increments j
  = slice class_order (sum (slice_to increments (Z.of_nat j)))
          (sum (slice_to increments (Z.of_nat j)) + inc).
Proof. intros H. unfold task_slice. rewrite H. reflexivity. Qed.

(** With increments that are not negative, the classes before
    [accumulated_inc] are those of the earlier tasks. *)
Lemma earlier_classes_prefix class_order increments j :
  Forall (fun i => 0 <= i) increments -> (j <= length increments)%nat ->
  earlier_classes class_order increments j
  = slice_to class_order (sum (slice_to increments (Z.of_nat j))).
Proof.
  intros Hpos. unfold earlier_classes. induction j as [|j IH]; intros Hj.
  - rewrite slice_to_nat. change (sum (take 0 increments)) with (Z.of_nat 0).
    rewrite slice_to_nat. reflexivity.
  - destruct (lookup_lt_is_Some_2 increments j ltac:(lia)) as [inc Hinc].
    assert (0 <= inc) as Hinc0
      by (eapply (proj1 (Forall_forall _ _) Hpos), list_elem_of_lookup_2, Hinc).
    assert (0 <= sum (take j increments)) as Hsum0
      by (apply sum_nonneg, Forall_take, Hpos).
    rewrite seq_S, map_app, concat_app, IH by lia. simpl.
    rewrite app_nil_r, (task_slice_lookup _ _ _ _ Hinc).
    rewrite !slice_to_nat, (sum_take_S _ _ _ Hinc).
    rewrite slice_nonneg by lia.
    rewrite <- (Z2Nat.id (sum (take j increments))) at 1 by lia.
    rewrite <- (Z2Nat.id (sum (take j increments) + inc)) by lia.
    rewrite !slice_to_nat, take_take_drop. f_equal. lia.
Qed.

(** C1. Overlap mode: [_filter_images] returns the matrix, and for
    every sample [i] and every task [j] the cell [(i, j)] is 1 exactly
    when some class present in the sample lies in the slice of the
    class order that task [j] owns; it is 0 otherwise. *)
Theorem overlap_membership (paths : list Path) increments class_order
    (i j : nat) (path : Path) :
  paths !! i = Some path -> (j < length increments)%nat ->
  exists t,
    _filter_images pixels paths increments class_order "overlap" = Ok t
    /\ (cell t i j = Some 1
        <-> exists c, c ∈ sample_classes pixels path
                      /\ c ∈ task_slice class_order increments j)
    /\ (cell t i j = Some 1 \/ cell t i j = Some 0).
Proof.
  intros Hi Hj.
  destruct (lookup_lt_is_Some_2 increments j Hj) as [inc Hinc].
  destruct (filter_images_cells paths increments class_order "overlap"
              ltac:(left; reflexivity)) as (t & Hrun & _ & Hcell).
  exists t. split; [exact Hrun|].
  rewrite (Hcell i j path inc Hi Hinc), (task_slice_lookup _ _ _ _ Hinc).
  unfold task_test, member. rewrite decide_True by reflexivity.
  rewrite <- any_contains.
  destruct (any _ _); split; try (left; reflexivity); try (right; reflexivity);
    split; (reflexivity || discriminate).
Qed.

(** C2. Disjoint mode: [_filter_images] returns the matrix, and for
    every sample [i] and every task [j] the cell [(i, j)] is 1 exactly
    when some class present in the sample lies in the slice of task [j]
    and every class present in the sample lies in that slice, among the
    classes of the earlier tasks, or is 0 or 255. *)
Theorem disjoint_membership (paths : list Path) increments class_order
    (i j : nat) (path : Path) :
  Forall (fun inc => 0 <= inc) increments ->
  paths !! i = Some path -> (j < length increments)%nat ->
  exists t,
    _filter_images pixels paths increments class_order "disjoint" = Ok t
    /\ (cell t i j = Some 1
        <-> (exists c, c ∈ sample_classes pixels path
                       /\ c ∈ task_slice class_order increments j)
            /\ (forall c, c ∈ sample_classes pixels path ->
                   c ∈ task_slice class_order increments j
                   \/ c ∈ earlier_classes class_order increments j
                   \/ c = 0 \/ c = 255))
    /\ (cell t i j = Some 1 \/ cell t i j = Some 0).
Proof.
  intros Hpos Hi Hj.
  destruct (lookup_lt_is_Some_2 increments j Hj) as [inc Hinc].
  destruct (filter_images_cells paths increments class_order "disjoint"
              ltac:(right; reflexivity)) as (t & Hrun & _ & Hcell).
  exists t. split; [exact Hrun|].
  rewrite (Hcell i j path inc Hi Hinc), (task_slice_lookup _ _ _ _ Hinc).
  rewrite (earlier_classes_prefix _ _ _ Hpos) by lia.
  unfold task_test, member. rewrite decide_False by discriminate.
  rewrite <- any_contains.
  assert ((forall c, c ∈ sample_classes pixels path ->
             c ∈ slice class_order (sum (slice_to increments (Z.of_nat j)))
                   (sum (slice_to increments (Z.of_nat j)) + inc)
             \/ c ∈ slice_to class_order
                      (sum (slice_to increments (Z.of_nat j)))
             \/ c = 0 \/ c = 255)
          <-> all (fun c => contains c
                     (slice class_order
                        (sum (slice_to increments (Z.of_nat j)))
                        (sum (slice_to increments (Z.of_nat j)) + inc)
                      ++ slice_to class_order
                           (sum (slice_to increments (Z.of_nat j)))
                      ++ [0; 255]))
                  (sample_classes pixels path) = true) as ->.
  { rewrite all_contains. apply forall_proper. intros c.
    rewrite !elem_of_app, !elem_of_cons, elem_of_nil. tauto. }
  rewrite <- andb_true_iff.
  destruct (_ && _); split; try (left; reflexivity); try (right; reflexivity);
    split; (reflexivity || discriminate).
Qed.

(** C3, as the code has it. Disjoint mode, a sample whose classes are
    exactly 1 and 2, class 1 in the slice of task 0, class 2 in the
    slice of task 1 and not in that of task 0: the sample is not
    assigned to task 0 and is assigned to task 1. *)
Theorem disjoint_split_sample (paths : list Path) increments class_order
    (i : nat) (path : Path) :
  paths !! i = Some path ->
  (forall c, c ∈ sample_classes pixels path <-> c = 1 \/ c = 2) ->
  1 ∈ task_slice class_order increments 0 ->
  2 ∈ task_slice class_order increments 1 ->
  2 ∉ task_slice class_order increments 0 ->
  exists t,
    _filter_images pixels paths increments class_order "disjoint" = Ok t
    /\ cell t i 0 = Some 0 /\ cell t i 1 = Some 1.
Proof.
  intros Hi Hcls H1 H2 Hn2.
  destruct (increments !! 0%nat) as [inc0|] eqn:Hinc0;
    [|unfold task_slice in H1; rewrite Hinc0 in H1; inversion H1].
  destruct (increments !! 1%nat) as [inc1|] eqn:Hinc1;
    [|unfold task_slice in H2; rewrite Hinc1 in H2; inversion H2].
  destruct (filter_images_cells paths increments class_order "disjoint"
              ltac:(right; reflexivity)) as (t & Hrun & _ & Hcell).
  exists t. split; [exact Hrun|].
  rewrite (Hcell i 0%nat path inc0 Hi Hinc0), (Hcell i 1%nat path inc1 Hi Hinc1).
  rewrite (task_slice_lookup _ _ _ _ Hinc0) in H1, Hn2.
  rewrite (task_slice_lookup _ _ _ _ Hinc1) in H2.
  assert (sum (slice_to increments (Z.of_nat 0)) = 0) as Hs0
    by (rewrite slice_to_nat; reflexivity).
  assert (sum (slice_to increments (Z.of_nat 1)) = inc0) as Hs1
    by (rewrite slice_to_nat, (sum_take_S _ _ _ Hinc0); simpl; lia).
  rewrite Hs0 in H1, Hn2 |- *. rewrite Hs1 in H2 |- *.
  rewrite Z.add_0_l in H1.
  unfold task_test, member. rewrite !decide_False by discriminate.
  split.
  - destruct (all _ _) eqn:Hall; [|rewrite andb_false_r; reflexivity].
    exfalso. rewrite all_contains in Hall.
    specialize (Hall 2 ltac:(apply Hcls; right; reflexivity)).
    rewrite !elem_of_app, !elem_of_cons, elem_of_nil in Hall.
    destruct Hall as [H|[H|[H|[H|[]]]]]; try discriminate.
    + contradiction.
    + unfold slice_to, slice in H. rewrite Z.sub_diag in H. inversion H.
  - assert (any (fun c => contains c (slice class_order inc0 (inc0 + inc1)))
                (sample_classes pixels path) = true) as ->.
    { apply any_contains. exists 2. split; [apply Hcls; right; reflexivity|].
      exact H2. }
    assert (all (fun c => contains c
                   (slice class_order inc0 (inc0 + inc1)
                    ++ slice_to class_order inc0 ++ [0; 255]))
                (sample_classes pixels path) = true) as ->.
    { apply all_contains. intros c Hc. apply Hcls in Hc as [->| ->].
      - rewrite !elem_of_app. right. left. exact H1.
      - rewrite !elem_of_app. left. exact H2. }
    reflexivity.
Qed.

(** C9. On the same inputs both modes return a matrix, and at every
    sample [i] and task [j] the cell of the disjoint matrix is at most
    the cell of the overlap matrix: a sample that disjoint mode assigns
    to a task is assigned to it by overlap mode too. *)
Theorem disjoint_below_overlap (paths : list Path) increments class_order
    (i j : nat) :
  (i < length paths)%nat -> (j < length increments)%nat ->
  exists td to a b,
    _filter_images pixels paths increments class_order "disjoint" = Ok td
    /\ _filter_images pixels paths increments class_order "overlap" = Ok to
    /\ cell td i j = Some a /\ cell to i j = Some b
    /\ a <= b /\ (a = 1 -> b = 1).
Proof.
  intros Hi Hj.
  destruct (lookup_lt_is_Some_2 paths i Hi) as [path Hpath].
  destruct (lookup_lt_is_Some_2 increments j Hj) as [inc Hinc].
  destruct (filter_images_cells paths increments class_order "disjoint"
              ltac:(right; reflexivity)) as (td & Hrund & _ & Hcelld).
  destruct (filter_images_cells paths increments class_order "overlap"
              ltac:(left; reflexivity)) as (to & Hruno & _ & Hcello).
  exists td, to. do 2 eexists.
  split; [exact Hrund|]. split; [exact Hruno|].
  split; [apply (Hcelld i j path inc Hpath Hinc)|].
  split; [apply (Hcello i j path inc Hpath Hinc)|].
  unfold task_test, member.
  rewrite decide_False by discriminate. rewrite decide_True by reflexivity.
  destruct (any _ _); destruct (all _ _); simpl; split; (lia || discriminate).
Qed.

End Filter.

(** In overlap mode the sample of the fixture belongs to both tasks. *)
Example overlap_several_tasks :
  _filter_images fixture_pixels fixture_paths [1; 1] [1; 2] "overlap"
  = Ok [[1; 1]].
Proof. reflexivity. Qed.

Lemma overlap_membership_witness :
  exists t,
    _filter_images fixture_pixels fixture_paths [1; 1] [1; 2] "overlap" = Ok t
    /\ (cell t 0 1 = Some 1
        <-> exists c, c ∈ sample_classes fixture_pixels [1; 2; 2; 1]
                      /\ c ∈ task_slice [1; 2] [1; 1] 1)
    /\ (cell t 0 1 = Some 1 \/ cell t 0 1 = Some 0).
Proof.
  apply (overlap_membership fixture_pixels fixture_paths [1; 1] [1; 2]
           0%nat 1%nat [1; 2; 2; 1]).
  - reflexivity.
  - simpl. lia.
Defined.

Lemma disjoint_membership_witness :
  exists t,
    _filter_images fixture_pixels fixture_paths [1; 1] [1; 2] "disjoint" = Ok t
    /\ (cell t 0 1 = Some 1
        <-> (exists c, c ∈ sample_classes fixture_pixels [1; 2; 2; 1]
                       /\ c ∈ task_slice [1; 2] [1; 1] 1)
            /\ (forall c, c ∈ sample_classes fixture_pixels [1; 2; 2; 1] ->
                   c ∈ task_slice [1; 2] [1; 1] 1
                   \/ c ∈ earlier_classes [1; 2] [1; 1] 1
                   \/ c = 0 \/ c = 255))
    /\ (cell t 0 1 = Some 1 \/ cell t 0 1 = Some 0).
Proof.
  apply (disjoint_membership fixture_pixels fixture_paths [1; 1] [1; 2]
           0%nat 1%nat [1; 2; 2; 1]).
  - repeat constructor; lia.
  - reflexivity.
  - simpl. lia.
Defined.

(** C3 as the specification states it fails on the fixture: the row of
    the sample is not all zeros, the sample is assigned to task 1. *)
Lemma disjoint_split_sample_not_excluded :
  ~ (exists t,
       _filter_images fixture_pixels fixture_paths [1; 1] [1; 2] "disjoint"
       = Ok t
       /\ t !! 0%nat = Some [0; 0]).
Proof.
  intros (t & Hrun & Hrow). vm_compute in Hrun.
  injection Hrun as <-. discriminate Hrow.
Qed.

Lemma disjoint_split_sample_witness :
  exists t,
    _filter_images fixture_pixels fixture_paths [1; 1] [1; 2] "disjoint" = Ok t
    /\ cell t 0 0 = Some 0 /\ cell t 0 1 = Some 1.
Proof.
  apply (disjoint_split_sample fixture_pixels fixture_paths [1; 1] [1; 2]
           0%nat [1; 2; 2; 1]).
  - reflexivity.
  - intros c. change (sample_classes fixture_pixels [1; 2; 2; 1]) with [1; 2].
    rewrite !elem_of_cons, elem_of_nil. tauto.
  - change (task_slice [1; 2] [1; 1] 0) with [1]. apply list_elem_of_here.
  - change (task_slice [1; 2] [1; 1] 1) with [2]. apply list_elem_of_here.
  - change (task_slice [1; 2] [1; 1] 0) with [1].
    rewrite list_elem_of_singleton. discriminate.
Defined.

Lemma disjoint_below_overlap_witness :
  exists td to a b,
    _filter_images fixture_pixels fixture_paths [1; 1] [1; 2] "disjoint" = Ok td
    /\ _filter_images fixture_pixels fixture_paths [1; 1] [1; 2] "overlap"
       = Ok to
    /\ cell td 0 0 = Some a /\ cell to 0 0 = Some b
    /\ a <= b /\ (a = 1 -> b = 1).
Proof.
  apply (disjoint_below_overlap fixture_pixels fixture_paths [1; 1] [1; 2]
           0%nat 0%nat); simpl; lia.
Defined.

End SegmentationFacts.

(** ** Task access on the segmentation scenario *)

Module ScenarioFacts.

Import PyFacts Segmentation SegmentationFacts.

Lemma getitem_nat {A : Type} (l : list A) (j : nat) (a : A) :
  l !! j = Some a -> getitem l (Z.of_nat j) = Ok a.
Proof.
  intros H. unfold getitem.
  destruct (Z.ltb_spec (Z.of_nat j) 0); [lia|].
  destruct (Z.ltb_spec (Z.of_nat j) 0); [lia|].
  rewrite Nat2Z.id, H. reflexivity.
Qed.

Lemma index_elem_of (l : list Z) (v : Z) :
  v ∈ l -> exists p, index l v = Ok p.
Proof.
  induction l as [|x l IH]; intros H; [inversion H|]. simpl.
  destruct (decide (x = v)) as [->|Hne]; [eexists; reflexivity|].
  apply elem_of_cons in H as [->|H]; [contradiction|].
  destruct (IH H) as [p ->]. eexists. reflexivity.
Qed.

(** [l.index(v)] is a position of [v] in [l], and the first one. *)
Lemma index_position (l : list Z) (v p : Z) :
  index l v = Ok p ->
  0 <= p /\ l !! Z.to_nat p = Some v
  /\ forall q, (q < Z.to_nat p)%nat -> l !! q <> Some v.
Proof.
  revert p. induction l as [|x l IH]; intros p; simpl; [discriminate|].
  destruct (decide (x = v)) as [->|Hne].
  - intros [= <-]. repeat split; [lia|]. intros q Hq. simpl in Hq. lia.
  - destruct (index l v) as [i|e] eqn:Hi; [|discriminate].
    rewrite bind_Ok_l. intros [= <-].
    destruct (IH i eq_refl) as (Hi0 & Hlook & Hfirst).
    replace (Z.to_nat (i + 1)) with (S (Z.to_nat i)) by lia.
    repeat split; [lia | exact Hlook |].
    intros [|q] Hq; simpl; [congruence|]. apply Hfirst. lia.
Qed.

Section Scenario.

Context {X Path DataType Trsf : Type}.
Variable pixels : Path -> list Z.
Variable _define_increments : Increment -> Z -> list Z -> result (list Z).
Variable _select_data_by_task :
  @Scenario X Path DataType Trsf -> TaskIndex ->
  result (list X * list Path * list (list Z) * TaskIndexes).

Local Abbreviation Scenario := (@Scenario X Path DataType Trsf).

(** Whatever the scenario held before, [_setup] leaves the dense range
    [1 .. nb_classes] as class order. *)
Lemma setup_class_order (self self' : Scenario) nb_tasks n :
  _setup pixels _define_increments self nb_tasks = Ok (self', n) ->
  class_order self' = Some (range 1 (_nb_classes self + 1)).
Proof.
  unfold _setup. destruct (get_data (cl_dataset self)) as [x y].
  destruct (_define_increments _ _ _) as [incs|e]; [|discriminate].
  rewrite bind_Ok_l.
  destruct (_filter_images _ _ _ _ _) as [t|e]; [|discriminate].
  rewrite bind_Ok_l. intros [= <- _]. reflexivity.
Qed.

Lemma add_task_labels_step (self : Scenario) co labels t inc :
  class_order self = Some co -> getitem (_increments self) t = Ok inc ->
  add_task_labels self labels t
  = Ok (labels ∪ list_to_set
          (slice co (sum (slice_to (_increments self) t))
                 (sum (slice_to (_increments self) t) + inc))).
Proof.
  intros Hco Hinc. unfold add_task_labels, class_order_slice.
  rewrite Hinc, bind_Ok_l, Hco. reflexivity.
Qed.

Lemma task_labels_loop (self : Scenario) co :
  class_order self = Some co ->
  forall ts labels,
    Forall (fun t => exists inc, getitem (_increments self) t = Ok inc) ts ->
    exists labels',
      for_each (add_task_labels self) labels ts = Ok labels'
      /\ forall c, c ∈ labels'
                   <-> c ∈ labels
                       \/ exists t, t ∈ ts /\ labels_of co (_increments self) t c.
Proof.
  intros Hco. induction ts as [|t ts IH]; intros labels Hvalid.
  - exists labels. split; [reflexivity|]. intros c. split; [auto|].
    intros [H|(t & Ht & _)]; [exact H | inversion Ht].
  - apply Forall_cons in Hvalid as [[inc Hinc] Hvalid].
    rewrite for_each_cons, (add_task_labels_step self co labels t inc Hco Hinc).
    rewrite bind_Ok_l.
    destruct (IH (labels ∪ list_to_set
                   (slice co (sum (slice_to (_increments self) t))
                          (sum (slice_to (_increments self) t) + inc)))
                Hvalid) as (labels' & Hloop & Hmem).
    exists labels'. split; [exact Hloop|]. intros c.
    rewrite Hmem, elem_of_union, elem_of_list_to_set. split.
    + intros [[H|H]|(t' & Ht' & H)].
      * left. exact H.
      * right. exists t. split; [left|]. exists inc. split; assumption.
      * right. exists t'. split; [right; exact Ht' | exact H].
    + intros [H|(t' & Ht' & H)]; [left; left; exact H|].
      apply elem_of_cons in Ht' as [->|Ht'].
      * left. right. destruct H as (inc' & Hinc' & H).
        rewrite Hinc in Hinc'. injection Hinc' as <-. exact H.
      * right. exists t'. split; assumption.
Qed.

Lemma get_task_labels_spec (self : Scenario) co task_indexes :
  class_order self = Some co ->
  Forall (fun t => exists inc, getitem (_increments self) t = Ok inc)
         (task_list task_indexes) ->
  exists labels,
    _get_task_labels self task_indexes = Ok labels
    /\ forall c, c ∈ labels
                 <-> exists t, t ∈ task_list task_indexes
                               /\ labels_of co (_increments self) t c.
Proof.
  intros Hco Hvalid.
  destruct (task_labels_loop self co Hco (task_list task_indexes) ∅ Hvalid)
    as (labels & Hloop & Hmem).
  exists (elements labels). unfold _get_task_labels.
  fold (task_list task_indexes). rewrite Hloop, bind_Ok_l.
  split; [reflexivity|]. intros c.
  rewrite elem_of_elements, Hmem, elem_of_empty. tauto.
Qed.

(** The dictionary comprehension of [__getitem__]. *)
Lemma invert_labels_loop (self : Scenario) co :
  class_order self = Some co ->
  forall (labels : list Z) (d : gmap Z Z),
    (forall c, c ∈ labels -> c ∈ co) ->
    exists d' : gmap Z Z,
      for_each (fun d label => i ← class_order_index self label;
                               Ok (<[label := i]> d)) d labels = Ok d'
      /\ forall v,
          (v ∈ labels -> exists p, index co v = Ok p /\ d' !! v = Some p)
          /\ (v ∉ labels -> d' !! v = d !! v).
Proof.
  intros Hco. induction labels as [|l labels IH]; intros d Hin.
  - exists d. split; [reflexivity|]. intros v. split; [|reflexivity].
    intros H. inversion H.
  - rewrite for_each_cons.
    destruct (index_elem_of co l (Hin l ltac:(left))) as [p Hp].
    assert (class_order_index self l = Ok p) as ->
      by (unfold class_order_index; rewrite Hco; exact Hp).
    rewrite !bind_Ok_l.
    destruct (IH (<[l := p]> d) ltac:(intros c Hc; apply Hin; right; exact Hc))
      as (d' & Hloop & Hd').
    exists d'. split; [exact Hloop|]. intros v.
    destruct (Hd' v) as [Hyes Hno]. split.
    + intros Hv. destruct (decide (v ∈ labels)) as [Hvl|Hvl]; [auto|].
      apply elem_of_cons in Hv as [->|Hv]; [|contradiction].
      exists p. split; [exact Hp|]. rewrite (Hno Hvl). apply lookup_insert_eq.
    + intros Hv. apply not_elem_of_cons in Hv as [Hne Hv].
      rewrite (Hno Hv). apply lookup_insert_ne. congruence.
Qed.

(** Every task set that [__getitem__] returns remaps through a
    dictionary completed in this way. *)
Lemma getitem_inv (self : Scenario) task_index ts :
  __getitem__ _select_data_by_task self task_index = Ok ts ->
  exists d : gmap Z Z,
    forall seg_map,
      target_trsf ts seg_map
      = (fun v => dict_get (completed self d) v 0) <$> seg_map.
Proof.
  unfold __getitem__.
  destruct (match task_index with
            | Slice _ _ (Some _) => Raise ValueError
            | _ => Ok ()
            end) as [[]|e]; [|discriminate].
  rewrite bind_Ok_l.
  destruct (_select_data_by_task self task_index) as [[[[x y] t] tis]|e];
    [|discriminate].
  rewrite bind_Ok_l.
  destruct (decide (mode self = "overlap"%string
                    \/ mode self = "disjoint"%string)); [|discriminate].
  destruct (_get_task_labels self tis) as [labels|e]; [|discriminate].
  rewrite bind_Ok_l.
  destruct (invert_labels self labels) as [d|e]; [|discriminate].
  rewrite !bind_Ok_l. intros [= <-]. exists d. reflexivity.
Qed.

(** [__getitem__] returns for a request that the data selection
    resolves to tasks of the scenario, and the dictionary it builds
    holds, for each label of these tasks, its position in the class
    order, and nothing else. *)
Lemma getitem_spec (self : Scenario) task_index x y t task_indexes co :
  class_order self = Some co -> known_mode (mode self) ->
  unstepped task_index ->
  _select_data_by_task self task_index = Ok (x, y, t, task_indexes) ->
  Forall (fun t => exists inc, getitem (_increments self) t = Ok inc)
         (task_list task_indexes) ->
  exists ts (d : gmap Z Z),
    __getitem__ _select_data_by_task self task_index = Ok ts
    /\ (forall seg_map,
          target_trsf ts seg_map
          = (fun v => dict_get (completed self d) v 0) <$> seg_map)
    /\ forall v,
         ((exists t, t ∈ task_list task_indexes
                     /\ labels_of co (_increments self) t v) ->
          exists p, index co v = Ok p /\ d !! v = Some p)
         /\ (~ (exists t, t ∈ task_list task_indexes
                          /\ labels_of co (_increments self) t v) ->
             d !! v = None).
Proof.
  intros Hco Hmode Hstep Hsel Hvalid.
  destruct (get_task_labels_spec self co task_indexes Hco Hvalid)
    as (labels & Hlabels & Hmem).
  destruct (invert_labels_loop self co Hco labels ∅) as (d & Hd & Hdict).
  { intros c Hc. apply Hmem in Hc as (t' & _ & inc & _ & Hc).
    eapply slice_elem_of, Hc. }
  unfold __getitem__.
  assert (match task_index with
          | Slice _ _ (Some _) => Raise ValueError
          | _ => Ok ()
          end = Ok ()) as ->
    by (destruct task_index as [|? ? [|]]; simpl in Hstep; tauto).
  rewrite bind_Ok_l, Hsel, bind_Ok_l.
  rewrite decide_True by exact Hmode.
  rewrite Hlabels, bind_Ok_l. unfold invert_labels. rewrite Hd, !bind_Ok_l.
  eexists. exists d. split; [reflexivity|]. split; [reflexivity|].
  intros v. destruct (Hdict v) as [Hyes Hno]. split.
  - intros H. apply Hyes, Hmem, H.
  - intros H. rewrite Hno; [apply lookup_empty|]. rewrite Hmem. exact H.
Qed.

(** C5. Test mode (the dataset is not in train mode): every task set
    that [__getitem__] returns remaps 0 to 0 when [test_background] is
    set and to 255 when it is not, and remaps 255 to 255; and
    [__getitem__] does return one for every request that the data
    selection resolves to tasks of the scenario. *)
Theorem remap_test_mode (self : Scenario) (task_index : TaskIndex) :
  train (cl_dataset self) = false ->
  (forall ts,
     __getitem__ _select_data_by_task self task_index = Ok ts ->
     exists remap : Z -> Z,
       (forall seg_map, target_trsf ts seg_map = remap <$> seg_map)
       /\ remap 0 = (if test_background self then 0 else 255)
       /\ remap 255 = 255)
  /\ (forall co x y t task_indexes,
        class_order self = Some co -> known_mode (mode self) ->
        unstepped task_index ->
        _select_data_by_task self task_index = Ok (x, y, t, task_indexes) ->
        Forall (fun t => exists inc, getitem (_increments self) t = Ok inc)
               (task_list task_indexes) ->
        exists ts, __getitem__ _select_data_by_task self task_index = Ok ts).
Proof.
  intros Htest. split.
  - intros ts Hts. destruct (getitem_inv self task_index ts Hts) as [d Hd].
    exists (fun v => dict_get (completed self d) v 0).
    split; [exact Hd|]. unfold completed, dict_get. rewrite Htest. simpl.
    split.
    + rewrite lookup_insert_ne by discriminate.
      rewrite lookup_insert_eq. reflexivity.
    + rewrite lookup_insert_eq. reflexivity.
  - intros co x y t tis Hco Hmode Hstep Hsel Hvalid.
    destruct (getitem_spec self task_index x y t tis co
                Hco Hmode Hstep Hsel Hvalid) as (ts & _ & Hts & _).
    exists ts. exact Hts.
Qed.

(** C6, as the code has it. When the data selection resolves the
    request to task [j], [__getitem__] returns a task set whose remap
    function sends every class of the slice of task [j] to its position
    in the class order, in train mode for every class, and outside train
    mode for every class other than 0 and 255; in train mode it sends
    every identifier outside that slice to 0. *)
Theorem remap_task_classes (self : Scenario) (task_index : TaskIndex)
    x y t (j : nat) co :
  class_order self = Some co -> known_mode (mode self) ->
  unstepped task_index ->
  _select_data_by_task self task_index = Ok (x, y, t, One (Z.of_nat j)) ->
  (j < length (_increments self))%nat ->
  exists ts (remap : Z -> Z),
    __getitem__ _select_data_by_task self task_index = Ok ts
    /\ (forall seg_map, target_trsf ts seg_map = remap <$> seg_map)
    /\ (forall c,
          c ∈ task_slice co (_increments self) j ->
          train (cl_dataset self) = true \/ (c <> 0 /\ c <> 255) ->
          exists p, index co c = Ok p /\ 0 <= p
                    /\ co !! Z.to_nat p = Some c /\ remap c = p)
    /\ (train (cl_dataset self) = true ->
        forall v, v ∉ task_slice co (_increments self) j -> remap v = 0).
Proof.
  intros Hco Hmode Hstep Hsel Hj.
  destruct (lookup_lt_is_Some_2 (_increments self) j Hj) as [inc Hinc].
  pose proof (getitem_nat _ _ _ Hinc) as Hget.
  destruct (getitem_spec self task_index x y t (One (Z.of_nat j)) co
              Hco Hmode Hstep Hsel) as (ts & d & Hts & Htrsf & Hdict).
  { repeat constructor. exists inc. exact Hget. }
  assert (forall v, (exists t', t' ∈ task_list (One (Z.of_nat j))
                                /\ labels_of co (_increments self) t' v)
                    <-> v ∈ task_slice co (_increments self) j) as Hslice.
  { intros v. rewrite (task_slice_lookup _ _ _ _ Hinc). simpl. split.
    - intros (t' & Ht' & inc' & Hinc' & Hv).
      apply list_elem_of_singleton in Ht' as ->.
      rewrite Hget in Hinc'. injection Hinc' as <-. exact Hv.
    - intros Hv. exists (Z.of_nat j). split; [apply list_elem_of_here|].
      exists inc. split; assumption. }
  exists ts, (fun v => dict_get (completed self d) v 0).
  split; [exact Hts|]. split; [exact Htrsf|]. split.
  - intros c Hc Hcase. apply Hslice in Hc.
    destruct (proj1 (Hdict c) Hc) as (p & Hp & Hlook).
    destruct (index_position co c p Hp) as (Hp0 & Hpos & _).
    exists p. split; [exact Hp|]. split; [exact Hp0|]. split; [exact Hpos|].
    unfold dict_get, completed.
    destruct (train (cl_dataset self)); simpl.
    + rewrite Hlook. reflexivity.
    + destruct Hcase as [|[H0 H255]]; [discriminate|].
      rewrite !lookup_insert_ne by congruence. rewrite Hlook. reflexivity.
  - intros Htrain v Hv. unfold dict_get, completed. rewrite Htrain. simpl.
    rewrite (proj2 (Hdict v)); [reflexivity|]. rewrite Hslice. exact Hv.
Qed.

End Scenario.

Example three_classes_setup :
  _setup fixture_pixels define_increments
         (fixture_scenario false false 3 [1; 2] None
                           [[1; 0]; [2; 3]; [1; 3; 255]]) 0
  = Ok (three_classes, 2).
Proof. reflexivity. Qed.

Example many_classes_setup :
  _setup fixture_pixels define_increments
         (fixture_scenario false true 255 [255] None []) 0
  = Ok (many_classes, 1).
Proof. vm_compute. reflexivity. Qed.

(** C4 fails on the code. A scenario is built over two classes in two
    tasks, with the class order [2, 1] supplied, and one label map that
    holds class 2 only.  [_setup] replaces the supplied order by
    [1, 2] and assigns the sample to task 1; under the supplied order
    class 2 belongs to task 0 and the matrix would be [[1, 0]]. *)
Theorem setup_discards_class_order :
  exists self',
    _setup fixture_pixels define_increments
           (fixture_scenario true true 2 [1; 1] (Some [2; 1]) [[2; 2]]) 0
    = Ok (self', 2)
    /\ class_order self' = Some [1; 2]
    /\ dataset self' = ([tt], [[2; 2]], [[0; 1]])
    /\ _filter_images fixture_pixels [[2; 2]] [1; 1] [2; 1] "overlap"
       = Ok [[1; 0]].
Proof. eexists. repeat split; reflexivity. Qed.

Lemma remap_test_mode_witness :
  (forall ts,
     __getitem__ select_data_by_task three_classes (Index 1) = Ok ts ->
     exists remap : Z -> Z,
       (forall seg_map, target_trsf ts seg_map = remap <$> seg_map)
       /\ remap 0 = (if test_background three_classes then 0 else 255)
       /\ remap 255 = 255)
  /\ (forall co x y t task_indexes,
        class_order three_classes = Some co ->
        known_mode (mode three_classes) ->
        unstepped (Index 1) ->
        select_data_by_task three_classes (Index 1)
        = Ok (x, y, t, task_indexes) ->
        Forall (fun t => exists inc,
                  getitem (_increments three_classes) t = Ok inc)
               (task_list task_indexes) ->
        exists ts,
          __getitem__ select_data_by_task three_classes (Index 1) = Ok ts).
Proof.
  apply (remap_test_mode select_data_by_task three_classes (Index 1)).
  reflexivity.
Defined.

(** C6 as the specification states it fails outside train mode: in
    [many_classes] the class 255 belongs to the slice of task 0 and
    stands at position 254 of the class order, and the task set of task
    0 remaps it to 255. *)
Lemma remap_position_fails_in_test_mode :
  ~ (forall ts,
       __getitem__ select_data_by_task many_classes (Index 0) = Ok ts ->
       forall c p,
         c ∈ task_slice (range 1 256) [255] 0 ->
         index (range 1 256) c = Ok p ->
         target_trsf ts [c] = [p]).
Proof.
  intros H.
  destruct (__getitem__ select_data_by_task many_classes (Index 0))
    as [ts|e] eqn:Hts; [|vm_compute in Hts; discriminate].
  specialize (H ts eq_refl 255 254).
  vm_compute in Hts. injection Hts as <-.
  assert (255 ∈ task_slice (range 1 256) [255] 0) as Hin.
  { apply list_elem_of_In. vm_compute. tauto. }
  specialize (H Hin ltac:(vm_compute; reflexivity)).
  vm_compute in H. discriminate H.
Qed.

Lemma remap_task_classes_witness :
  exists ts (remap : Z -> Z),
    __getitem__ select_data_by_task three_classes (Index 1) = Ok ts
    /\ (forall seg_map, target_trsf ts seg_map = remap <$> seg_map)
    /\ (forall c,
          c ∈ task_slice [1; 2; 3] (_increments three_classes) 1 ->
          train (cl_dataset three_classes) = true \/ (c <> 0 /\ c <> 255) ->
          exists p, index [1; 2; 3] c = Ok p /\ 0 <= p
                    /\ [1; 2; 3] !! Z.to_nat p = Some c /\ remap c = p)
    /\ (train (cl_dataset three_classes) = true ->
        forall v, v ∉ task_slice [1; 2; 3] (_increments three_classes) 1 ->
                  remap v = 0).
Proof.
  apply (remap_task_classes select_data_by_task three_classes (Index 1)
           [tt; tt] [[2; 3]; [1; 3; 255]] [[0; 1]; [1; 1]] 1%nat [1; 2; 3]).
  - reflexivity.
  - left. reflexivity.
  - exact I.
  - reflexivity.
  - simpl. lia.
Defined.

End ScenarioFacts.

(** ** Task access on the transformation-incremental scenario *)

Module TransformationFacts.

Import PyFacts Transformation.

Section Scenario.

Context {X DataType Callable : Type}.
Variable _select_data_by_task :
  @Scenario X DataType Callable -> Z -> result (list X * list Z * list Z).

Local Abbreviation Scenario := (@Scenario X DataType Callable).

(** What [update_task_indexes] does, by the double of the index. *)
Lemma update_task_indexes_array (self : Scenario) task_index v :
  float_of_int task_index = Ok v ->
  update_task_indexes self task_index
  = Ok (set_task_indexes self (replicate (nb_samples self) v)).
Proof.
  intros Hv. unfold update_task_indexes, np_ones_times, nb_samples.
  rewrite Hv, !bind_Ok_l, Z.mul_1_l. reflexivity.
Qed.

Lemma update_task_indexes_raises (self : Scenario) task_index e :
  float_of_int task_index = Raise e ->
  update_task_indexes self task_index = Raise e.
Proof.
  intros He. unfold update_task_indexes, np_ones_times. rewrite He.
  reflexivity.
Qed.

(** [__getitem__] on an integer, by the index it resolves to. *)
Lemma getitem_index fuel (self : Scenario) task_index :
  __getitem__ _select_data_by_task fuel self (Index task_index)
  = match resolve_index fuel self task_index with
    | None => None
    | Some (Raise e) => Some (self, Raise e)
    | Some (Ok k) =>
        match float_of_int k with
        | Raise e => Some (self, Raise e)
        | Ok v =>
            Some (set_task_indexes self (replicate (nb_samples self) v),
                  train ← _select_data_by_task
                            (set_task_indexes self
                               (replicate (nb_samples self) v)) k;
                  trsf ← get_task_transformation
                           (set_task_indexes self
                              (replicate (nb_samples self) v)) k;
                  Ok {| ts_train := train; ts_trsf := trsf;
                        ts_data_type := data_type self |})
        end
    end.
Proof.
  unfold __getitem__.
  destruct (resolve_index fuel self task_index) as [[k|e]|]; try reflexivity.
  destruct (float_of_int k) as [v|e] eqn:Hv.
  - rewrite (update_task_indexes_array self k v Hv). reflexivity.
  - rewrite (update_task_indexes_raises self k e Hv). reflexivity.
Qed.

(** An index that is not negative and that a double holds goes through
    [__getitem__] as it is. *)
Lemma getitem_nonneg fuel (self : Scenario) task_index :
  0 <= task_index -> exact_float task_index ->
  __getitem__ _select_data_by_task fuel self (Index task_index)
  = Some (set_task_indexes self (replicate (nb_samples self) task_index),
          train ← _select_data_by_task
                    (set_task_indexes self
                       (replicate (nb_samples self) task_index)) task_index;
          trsf ← get_task_transformation
                   (set_task_indexes self
                      (replicate (nb_samples self) task_index)) task_index;
          Ok {| ts_train := train; ts_trsf := trsf;
                ts_data_type := data_type self |}).
Proof.
  intros H Hexact. rewrite getitem_index. unfold resolve_index.
  destruct (Z.ltb_spec task_index 0); [lia|]. rewrite Hexact. reflexivity.
Qed.

Lemma len_self_Ok (self : Scenario) :
  0 <= __len__ self <= sys_maxsize -> len_self self = Ok (__len__ self).
Proof.
  intros H. unfold len_self.
  destruct (Z.ltb_spec (__len__ self) 0); [lia|].
  destruct (Z.ltb_spec sys_maxsize (__len__ self)); [lia|]. reflexivity.
Qed.


(** Without any task the loop on a negative index never stops. *)
Lemma wrap_negative_no_task fuel (self : Scenario) t :
  __len__ self = 0 -> t < 0 -> wrap_negative fuel self t = None.
Proof.
  intros Hlen Hneg. revert t Hneg. induction fuel as [|fuel IH]; intros t Hneg;
    simpl; destruct (Z.ltb_spec t 0); try lia; [reflexivity|].
  rewrite len_self_Ok by (rewrite Hlen; unfold sys_maxsize; lia).
  apply IH. lia.
Qed.

(** C7. For a task index [t] of the scenario, one that a double holds
    as every index below [2 ^ 53] is, [__getitem__] leaves a task-index
    array with one entry per sample, each equal to [t], whatever the
    array held before; and it returns the task set as soon as the data
    selection does. *)
Theorem getitem_rewrites_task_indexes fuel (self : Scenario) (t : Z) :
  one_chain_per_task self -> 0 <= t < __len__ self -> exact_float t ->
  exists self' outcome,
    __getitem__ _select_data_by_task fuel self (Index t)
    = Some (self', outcome)
    /\ task_indexes self' = replicate (nb_samples self) t
    /\ length (task_indexes self') = nb_samples self'
    /\ (forall i, (i < nb_samples self')%nat -> task_indexes self' !! i = Some t)
    /\ (forall train,
          _select_data_by_task self' t = Ok train ->
          exists ts, outcome = Ok ts /\ ts_train ts = train).
Proof.
  intros Hchains Ht Hexact. rewrite getitem_nonneg by (lia || exact Hexact).
  do 2 eexists. split; [reflexivity|].
  split; [reflexivity|]. split; [|split].
  - apply length_replicate.
  - intros i Hi. apply lookup_replicate_2. exact Hi.
  - intros train Htrain. rewrite Htrain, bind_Ok_l.
    unfold get_task_transformation, getitem.
    change (inc_trsf (set_task_indexes self (replicate (nb_samples self) t)))
      with (inc_trsf self).
    destruct (Z.ltb_spec t 0); [lia|]. destruct (Z.ltb_spec t 0); [lia|].
    destruct (lookup_lt_is_Some_2 (inc_trsf self) (Z.to_nat t)) as [chain Hc].
    { unfold one_chain_per_task, len in Hchains. lia. }
    rewrite Hc, !bind_Ok_l. eexists. split; reflexivity.
Qed.


(** C10, as the code has it. An index at or past the number of tasks
    that a double holds is not refused: the task-index array is
    overwritten with it, and the access then fails; when the data
    selection returns, the failure is the [IndexError] of the look-up of
    the transformation chain. *)
Theorem getitem_past_the_end fuel (self : Scenario) (t : Z) :
  one_chain_per_task self -> __len__ self <= t -> exact_float t ->
  exists self' e,
    __getitem__ _select_data_by_task fuel self (Index t)
    = Some (self', Raise e)
    /\ task_indexes self' = replicate (nb_samples self) t
    /\ (task_indexes self <> replicate (nb_samples self) t -> self' <> self)
    /\ (forall train, _select_data_by_task self' t = Ok train ->
                      e = IndexError).
Proof.
  intros Hchains Ht Hexact.
  assert (0 <= t) as Ht0 by (unfold one_chain_per_task, len in Hchains; lia).
  rewrite getitem_nonneg by (lia || exact Hexact).
  set (self' := set_task_indexes self (replicate (nb_samples self) t)).
  assert (get_task_transformation self' t = Raise IndexError) as Hlookup.
  { unfold get_task_transformation, getitem.
    change (inc_trsf self') with (inc_trsf self).
    destruct (Z.ltb_spec t 0); [lia|]. destruct (Z.ltb_spec t 0); [lia|].
    rewrite lookup_ge_None_2; [reflexivity|].
    unfold one_chain_per_task, len in Hchains. lia. }
  rewrite Hlookup.
  destruct (_select_data_by_task self' t) as [train|e] eqn:Hsel.
  - exists self', IndexError.
    split; [reflexivity|]. split; [reflexivity|].
    split; [|intros ? _; reflexivity].
    intros Hdiff Heq. apply Hdiff. rewrite <- Heq at 1. reflexivity.
  - exists self', e.
    split; [reflexivity|]. split; [reflexivity|].
    split; [|intros ? Htrain; rewrite Hsel in Htrain; discriminate Htrain].
    intros Hdiff Heq. apply Hdiff. rewrite <- Heq at 1. reflexivity.
Qed.

(** Past the number of tasks, the array is overwritten with the double
    of the index, whatever it is, and the access fails. *)
Lemma getitem_past_the_end_rounded fuel (self : Scenario) (t v : Z) :
  one_chain_per_task self -> __len__ self <= t -> float_of_int t = Ok v ->
  exists e,
    __getitem__ _select_data_by_task fuel self (Index t)
    = Some (set_task_indexes self (replicate (nb_samples self) v), Raise e).
Proof.
  intros Hchains Ht Hv.
  assert (0 <= t) as Ht0 by (unfold one_chain_per_task, len in Hchains; lia).
  rewrite getitem_index. unfold resolve_index.
  destruct (Z.ltb_spec t 0); [lia|]. rewrite Hv.
  set (self' := set_task_indexes self (replicate (nb_samples self) v)).
  assert (get_task_transformation self' t = Raise IndexError) as ->.
  { unfold get_task_transformation, getitem.
    change (inc_trsf self') with (inc_trsf self).
    destruct (Z.ltb_spec t 0); [lia|]. destruct (Z.ltb_spec t 0); [lia|].
    rewrite lookup_ge_None_2; [reflexivity|].
    unfold one_chain_per_task, len in Hchains. lia. }
  destruct (_select_data_by_task self' t) as [train|e].
  - exists IndexError. reflexivity.
  - exists e. reflexivity.
Qed.

End Scenario.

Example getitem_task_2 :
  __getitem__ select_data_by_task 0 four_tasks (Index 2)
  = Some (four_tasks_at 2,
          Ok {| ts_train := ([100%nat; 101%nat; 102%nat], [5; 6; 5], [2; 2; 2]);
                ts_trsf := [12%nat; 7%nat];
                ts_data_type := tt |}).
Proof. vm_compute. reflexivity. Qed.

(** With four tasks, the accesses at -1 and at -5 are the access at 3. *)
Example getitem_minus_1 :
  __getitem__ select_data_by_task 1 four_tasks (Index (-1))
  = __getitem__ select_data_by_task 1 four_tasks (Index 3)
  /\ wrap_negative 1 four_tasks (-1) = Some (Ok 3).
Proof. split; vm_compute; reflexivity. Qed.

Example getitem_minus_5 :
  __getitem__ select_data_by_task 2 four_tasks (Index (-5))
  = __getitem__ select_data_by_task 2 four_tasks (Index 3)
  /\ wrap_negative 2 four_tasks (-5) = Some (Ok 3)
  /\ task_indexes (four_tasks_at 3) = [3; 3; 3].
Proof. repeat split; vm_compute; reflexivity. Qed.

(** Past [2 ^ 53] the array holds the double of the index, not the
    index. *)
Example getitem_rounded_index :
  exists e,
    __getitem__ select_data_by_task 0 four_tasks (Index (2 ^ 53 + 1))
    = Some (four_tasks_at (2 ^ 53), Raise e).
Proof.
  destruct (getitem_past_the_end_rounded select_data_by_task 0 four_tasks
              (2 ^ 53 + 1) (2 ^ 53)) as [e He].
  - reflexivity.
  - unfold __len__. simpl. lia.
  - vm_compute. reflexivity.
  - exists e. exact He.
Qed.

Lemma getitem_rewrites_task_indexes_witness :
  exists self' outcome,
    __getitem__ select_data_by_task 0 four_tasks (Index 2)
    = Some (self', outcome)
    /\ task_indexes self' = replicate (nb_samples four_tasks) 2
    /\ length (task_indexes self') = nb_samples self'
    /\ (forall i, (i < nb_samples self')%nat -> task_indexes self' !! i = Some 2)
    /\ (forall train,
          select_data_by_task self' 2 = Ok train ->
          exists ts, outcome = Ok ts /\ ts_train ts = train).
Proof.
  apply (getitem_rewrites_task_indexes select_data_by_task 0 four_tasks 2).
  - reflexivity.
  - unfold __len__. simpl. lia.
  - vm_compute. reflexivity.
Defined.


(** C10 as the specification states it fails on an index beyond the
    doubles: at [10 ^ 400] on [four_tasks], line 52 raises before
    anything is assigned, so that the array is not overwritten, the
    scenario is as it was, and the error is not that of the look-up. *)
Lemma getitem_past_the_doubles :
  ~ (exists self' e,
       __getitem__ select_data_by_task 0 four_tasks (Index (10 ^ 400))
       = Some (self', Raise e)
       /\ task_indexes self' = replicate (nb_samples four_tasks) (10 ^ 400)).
Proof.
  intros (self' & e & Hrun & Harr). vm_compute in Hrun.
  injection Hrun as <- _. vm_compute in Harr. discriminate Harr.
Qed.

Lemma getitem_past_the_end_witness :
  exists self' e,
    __getitem__ select_data_by_task 0 four_tasks (Index 4)
    = Some (self', Raise e)
    /\ task_indexes self' = replicate (nb_samples four_tasks) 4
    /\ (task_indexes four_tasks <> replicate (nb_samples four_tasks) 4 ->
        self' <> four_tasks)
    /\ (forall train, select_data_by_task self' 4 = Ok train ->
                      e = IndexError).
Proof.
  apply (getitem_past_the_end select_data_by_task 0 four_tasks 4).
  - reflexivity.
  - unfold __len__. simpl. lia.
  - vm_compute. reflexivity.
Defined.

End TransformationFacts.

(** ** Further properties of [_filter_images] *)

Module FilterProperties.

Import PyFacts Segmentation SegmentationFacts.

(** Every class of a task's test comes from the class order, or is one
    of the two pseudo-classes. *)
Lemma task_test_true mode class_order acc inc classes :
  task_test mode class_order acc inc classes = true ->
  exists c, c ∈ classes /\ c ∈ slice class_order acc (acc + inc).
Proof.
  unfold task_test, member. intros H. apply any_contains.
  destruct (decide (mode = "overlap"%string)); [exact H|].
  apply andb_true_iff in H as [H _]. exact H.
Qed.

Lemma task_test_disjoint class_order acc inc classes :
  task_test "disjoint" class_order acc inc classes = true
  <-> (exists c, c ∈ classes /\ c ∈ slice class_order acc (acc + inc))
      /\ (forall c, c ∈ classes ->
            c ∈ slice class_order acc (acc + inc)
            \/ c ∈ slice_to class_order acc \/ c = 0 \/ c = 255).
Proof.
  unfold task_test, member. rewrite decide_False by discriminate.
  rewrite andb_true_iff, any_contains, all_contains.
  apply and_iff_compat_l, forall_proper. intros c.
  rewrite !elem_of_app, !elem_of_cons, elem_of_nil. tauto.
Qed.

Lemma task_test_overlap class_order acc inc classes :
  task_test "overlap" class_order acc inc classes = true
  <-> exists c, c ∈ classes /\ c ∈ slice class_order acc (acc + inc).
Proof.
  unfold task_test, member. rewrite decide_True by reflexivity.
  apply any_contains.
Qed.

(** In a class order without repetition, the slice that starts at [a]
    shares nothing with the classes before [a]. *)
Lemma slice_fresh (class_order : list Z) a i c :
  NoDup class_order -> 0 <= a -> 0 <= i ->
  c ∈ slice class_order a (a + i) -> c ∉ slice_to class_order a.
Proof.
  intros Hnd Ha Hi Hc Hold.
  rewrite slice_nonneg in Hc by lia.
  rewrite <- (Z2Nat.id a) in Hold by lia. rewrite slice_to_nat in Hold.
  rewrite <- (take_drop (Z.to_nat a) class_order) in Hnd.
  apply NoDup_app in Hnd as (_ & Hdisj & _).
  apply (Hdisj c Hold).
  eapply (sublist_subseteq _ _ (sublist_take _ _)), Hc.
Qed.

(** A class of the slice of task [j] or of an earlier task is among the
    classes of the tasks before any later task. *)
Lemma earlier_classes_later class_order increments j1 j2 c :
  (j1 < j2)%nat ->
  c ∈ task_slice class_order increments j1
  \/ c ∈ earlier_classes class_order increments j1 ->
  c ∈ earlier_classes class_order increments j2.
Proof.
  intros Hlt H. unfold earlier_classes in *.
  apply list_elem_of_In, in_concat.
  destruct H as [H|H].
  - exists (task_slice class_order increments j1). split.
    + apply in_map, in_seq. lia.
    + apply list_elem_of_In, H.
  - apply list_elem_of_In, in_concat in H as (l & Hl & Hc).
    exists l. split; [|exact Hc].
    apply in_map_iff in Hl as (k & <- & Hk). apply in_map, in_seq.
    apply in_seq in Hk. lia.
Qed.

Section Filter.

Context {Path : Type}.
Variable pixels : Path -> list Z.

(** For a known mode the result has one row per label map and one
    column per task, and holds only zeros and ones. *)
Theorem filter_images_binary (paths : list Path) increments class_order mode :
  known_mode mode ->
  exists t,
    _filter_images pixels paths increments class_order mode = Ok t
    /\ length t = length paths
    /\ Forall (fun row => length row = length increments
                          /\ Forall (fun v => v = 0 \/ v = 1) row) t.
Proof.
  intros Hmode.
  destruct (filter_images_cells pixels paths increments class_order mode Hmode)
    as (t & Hrun & [Hrows Hcols] & Hcell).
  exists t. split; [exact Hrun|]. split; [exact Hrows|].
  apply Forall_forall. intros row Hrow.
  pose proof (proj1 (Forall_forall _ _) Hcols row Hrow) as Hlen.
  split; [exact Hlen|]. apply Forall_forall. intros v Hv.
  apply list_elem_of_lookup in Hrow as [i Hi].
  apply list_elem_of_lookup in Hv as [j Hj].
  destruct (lookup_lt_is_Some_2 paths i) as [path Hpath].
  { rewrite <- Hrows. eapply lookup_lt_Some, Hi. }
  destruct (lookup_lt_is_Some_2 increments j) as [inc Hinc].
  { rewrite <- Hlen. eapply lookup_lt_Some, Hj. }
  specialize (Hcell i j path inc Hpath Hinc).
  unfold cell in Hcell. rewrite Hi in Hcell. simpl in Hcell.
  rewrite Hj in Hcell. injection Hcell as ->.
  destruct (task_test _ _ _ _ _); [right | left]; reflexivity.
Qed.

(** With a mode that is neither of the two, the loop over the tasks
    goes through untouched when there is no sample... *)
Lemma tasks_loop_no_sample mode class_order increments k t acc :
  for_each (filter_task mode class_order []) (t, acc)
           (enumerate_from k increments)
  = Ok (t, acc + sum increments).
Proof.
  revert k acc. induction increments as [|inc incs IH]; intros k acc.
  - simpl. do 2 f_equal. unfold sum. simpl. lia.
  - cbn [enumerate_from]. rewrite for_each_cons.
    change (filter_task mode class_order [] (t, acc) (k, inc))
      with (Ok (t, acc + inc) : result (list (list Z) * Z)).
    rewrite bind_Ok_l, IH. do 2 f_equal. unfold sum. simpl. lia.
Qed.

Lemma filter_sample_unknown_mode mode labels all_labels j t ic :
  ~ known_mode mode ->
  filter_sample mode labels all_labels j t ic = Raise ValueError.
Proof.
  intros Hmode. unfold filter_sample. destruct ic as [index classes].
  rewrite decide_False by (intros H; apply Hmode; left; exact H).
  rewrite decide_False by (intros H; apply Hmode; right; exact H).
  reflexivity.
Qed.

(** ... and [ValueError] is raised only by the test of a sample against
    a task: an unknown mode is reported exactly when there is at least
    one label map and one task; otherwise the matrix of zeros comes
    back. *)
Theorem filter_images_unknown_mode (paths : list Path) increments
    class_order mode :
  ~ known_mode mode ->
  _filter_images pixels paths increments class_order mode
  = match paths, increments with
    | _ :: _, _ :: _ => Raise ValueError
    | _, _ => Ok (np_zeros (length paths) (length increments))
    end.
Proof.
  intros Hmode. unfold _filter_images, enumerate.
  destruct paths as [|path paths].
  - cbn [map]. rewrite tasks_loop_no_sample, bind_Ok_l.
    destruct increments; reflexivity.
  - destruct increments as [|inc incs]; [reflexivity|].
    cbn [enumerate_from map]. rewrite for_each_cons.
    assert (filter_task mode class_order
              (np_unique (pixels path)
               :: map (fun path => np_unique (pixels path)) paths)
              (np_zeros (length (path :: paths)) (length (inc :: incs)), 0)
              (0%nat, inc) = Raise ValueError) as ->; [|reflexivity].
    unfold filter_task, enumerate. cbn [enumerate_from].
    rewrite for_each_cons, (filter_sample_unknown_mode _ _ _ _ _ _ Hmode).
    reflexivity.
Qed.

(** A sample none of whose classes is in the class order belongs to no
    task, in either mode: its row is all zeros. *)
Theorem sample_without_known_class (paths : list Path) increments class_order
    mode (i j : nat) (path : Path) :
  known_mode mode -> paths !! i = Some path ->
  (j < length increments)%nat ->
  (forall c, c ∈ sample_classes pixels path -> c ∉ class_order) ->
  exists t,
    _filter_images pixels paths increments class_order mode = Ok t
    /\ cell t i j = Some 0.
Proof.
  intros Hmode Hi Hj Hnone.
  destruct (lookup_lt_is_Some_2 increments j Hj) as [inc Hinc].
  destruct (filter_images_cells pixels paths increments class_order mode Hmode)
    as (t & Hrun & _ & Hcell).
  exists t. split; [exact Hrun|].
  rewrite (Hcell i j path inc Hi Hinc).
  destruct (task_test _ _ _ _ _) eqn:Htest; [|reflexivity].
  apply task_test_true in Htest as (c & Hc & Hslice).
  exfalso. apply (Hnone c Hc). eapply slice_elem_of, Hslice.
Qed.

(** Disjoint mode: a sample that holds a class which is neither in the
    class order nor 0 nor 255 belongs to no task. *)
Theorem disjoint_foreign_class (paths : list Path) increments class_order
    (i j : nat) (path : Path) (c : Z) :
  paths !! i = Some path -> (j < length increments)%nat ->
  c ∈ sample_classes pixels path ->
  c ∉ class_order -> c <> 0 -> c <> 255 ->
  exists t,
    _filter_images pixels paths increments class_order "disjoint" = Ok t
    /\ cell t i j = Some 0.
Proof.
  intros Hi Hj Hc Hforeign H0 H255.
  destruct (lookup_lt_is_Some_2 increments j Hj) as [inc Hinc].
  destruct (filter_images_cells pixels paths increments class_order "disjoint"
              ltac:(right; reflexivity)) as (t & Hrun & _ & Hcell).
  exists t. split; [exact Hrun|].
  rewrite (Hcell i j path inc Hi Hinc).
  destruct (task_test _ _ _ _ _) eqn:Htest; [|reflexivity].
  apply task_test_disjoint in Htest as [_ Hall].
  exfalso. destruct (Hall c Hc) as [H|[H|[H|H]]]; try contradiction.
  - apply Hforeign. eapply slice_elem_of, H.
  - apply Hforeign. eapply slice_elem_of, H.
Qed.

(** Disjoint mode assigns a sample to at most one task, when the class
    order lists each class once, holds neither 0 nor 255, and no
    increment is negative. *)
Theorem disjoint_at_most_one_task (paths : list Path) increments class_order
    (i j1 j2 : nat) :
  NoDup class_order -> 0 ∉ class_order -> 255 ∉ class_order ->
  Forall (fun inc => 0 <= inc) increments ->
  exists t,
    _filter_images pixels paths increments class_order "disjoint" = Ok t
    /\ (cell t i j1 = Some 1 -> cell t i j2 = Some 1 -> j1 = j2).
Proof.
  intros Hnd H0 H255 Hpos.
  destruct (filter_images_cells pixels paths increments class_order "disjoint"
              ltac:(right; reflexivity)) as (t & Hrun & [Hrows Hcols] & Hcell).
  exists t. split; [exact Hrun|].
  assert (forall ja jb, (ja < jb)%nat ->
            cell t i ja = Some 1 -> cell t i jb = Some 1 -> False) as Hexcl.
  { intros ja jb Hlt Ha Hb.
    assert (exists row, t !! i = Some row /\ row !! ja = Some 1
                        /\ row !! jb = Some 1) as (row & Hrow & Hra & Hrb).
    { unfold cell in Ha, Hb. destruct (t !! i) as [row|]; [|discriminate].
      exists row. auto. }
    pose proof (proj1 (Forall_forall _ _) Hcols row
                  (list_elem_of_lookup_2 _ _ _ Hrow)) as Hlen.
    destruct (lookup_lt_is_Some_2 paths i) as [path Hpath].
    { rewrite <- Hrows. eapply lookup_lt_Some, Hrow. }
    destruct (lookup_lt_is_Some_2 increments ja) as [inca Hinca].
    { rewrite <- Hlen. eapply lookup_lt_Some, Hra. }
    destruct (lookup_lt_is_Some_2 increments jb) as [incb Hincb].
    { rewrite <- Hlen. eapply lookup_lt_Some, Hrb. }
    pose proof (lookup_lt_Some _ _ _ Hinca) as Hja.
    pose proof (lookup_lt_Some _ _ _ Hincb) as Hjb.
    rewrite (Hcell i ja path inca Hpath Hinca) in Ha.
    rewrite (Hcell i jb path incb Hpath Hincb) in Hb.
    destruct (task_test _ _ _ inca _) eqn:Hta; [|discriminate].
    destruct (task_test _ _ _ incb _) eqn:Htb; [|discriminate].
    apply task_test_disjoint in Hta as [_ Hall].
    apply task_test_disjoint in Htb as [(c & Hc & Hcb) _].
    assert (0 <= incb) as Hincb0
      by (eapply (proj1 (Forall_forall _ _) Hpos), list_elem_of_lookup_2, Hincb).
    assert (0 <= sum (slice_to increments (Z.of_nat jb))) as Hsum0
      by (rewrite slice_to_nat; apply sum_nonneg, Forall_take, Hpos).
    assert (c ∈ class_order) as Hco by (eapply slice_elem_of, Hcb).
    pose proof (slice_fresh class_order _ _ c Hnd Hsum0 Hincb0 Hcb) as Hfresh.
    rewrite <- (earlier_classes_prefix _ _ _ Hpos) in Hfresh by lia.
    destruct (Hall c Hc) as [H|[H|[H|H]]].
    - apply Hfresh, (earlier_classes_later _ _ ja jb c Hlt). left.
      rewrite (task_slice_lookup _ _ _ _ Hinca). exact H.
    - apply Hfresh, (earlier_classes_later _ _ ja jb c Hlt). right.
      rewrite (earlier_classes_prefix _ _ _ Hpos) by lia. exact H.
    - subst c. contradiction.
    - subst c. contradiction. }
  intros Ha Hb. destruct (Nat.lt_trichotomy j1 j2) as [Hlt|[Heq|Hgt]].
  - destruct (Hexcl j1 j2 Hlt Ha Hb).
  - exact Heq.
  - destruct (Hexcl j2 j1 Hgt Hb Ha).
Qed.

(** The slices of the tasks cover the class order as soon as the
    increments, none negative, sum to its length or more. *)
Lemma class_in_some_task class_order increments c :
  Forall (fun inc => 0 <= inc) increments ->
  len class_order <= sum increments ->
  c ∈ class_order ->
  exists j, (j < length increments)%nat
            /\ c ∈ task_slice class_order increments j.
Proof.
  intros Hpos Hsum Hc.
  assert (earlier_classes class_order increments (length increments)
          = class_order) as Hall.
  { rewrite (earlier_classes_prefix _ _ _ Hpos) by lia.
    rewrite slice_to_nat, firstn_all.
    pose proof (sum_nonneg _ Hpos) as Hs.
    rewrite <- (Z2Nat.id (sum increments)) by lia.
    rewrite slice_to_nat. apply firstn_all2. unfold len in Hsum. lia. }
  rewrite <- Hall in Hc. unfold earlier_classes in Hc.
  apply list_elem_of_In, in_concat in Hc as (l & Hl & Hc).
  apply in_map_iff in Hl as (j & <- & Hj). apply in_seq in Hj.
  exists j. split; [lia|]. apply list_elem_of_In, Hc.
Qed.

(** Overlap mode leaves out no sample that holds a class of the class
    order, under the same condition on the increments. *)
Theorem overlap_covers_known_class (paths : list Path) increments class_order
    (i : nat) (path : Path) (c : Z) :
  Forall (fun inc => 0 <= inc) increments ->
  len class_order <= sum increments ->
  paths !! i = Some path ->
  c ∈ sample_classes pixels path -> c ∈ class_order ->
  exists t j,
    _filter_images pixels paths increments class_order "overlap" = Ok t
    /\ (j < length increments)%nat /\ cell t i j = Some 1.
Proof.
  intros Hpos Hsum Hi Hc Hco.
  destruct (class_in_some_task class_order increments c Hpos Hsum Hco)
    as (j & Hj & Hslice).
  destruct (lookup_lt_is_Some_2 increments j Hj) as [inc Hinc].
  destruct (filter_images_cells pixels paths increments class_order "overlap"
              ltac:(left; reflexivity)) as (t & Hrun & _ & Hcell).
  exists t, j. split; [exact Hrun|]. split; [exact Hj|].
  rewrite (Hcell i j path inc Hi Hinc).
  rewrite (task_slice_lookup _ _ _ _ Hinc) in Hslice.
  rewrite (proj2 (task_test_overlap _ _ _ _)); [reflexivity|].
  exists c. split; assumption.
Qed.

(** The last index below [n] at which a test holds. *)
Lemma last_true (p : nat -> bool) (n : nat) :
  (exists j, (j < n)%nat /\ p j = true) ->
  exists j, (j < n)%nat /\ p j = true
            /\ forall k, (j < k < n)%nat -> p k = false.
Proof.
  induction n as [|n IH]; intros (j & Hj & Hp); [lia|].
  destruct (p n) eqn:Hn.
  - exists n. split; [lia|]. split; [exact Hn|]. intros k Hk. lia.
  - destruct IH as (j' & Hj' & Hp' & Hlast).
    { exists j. split; [|exact Hp].
      destruct (decide (j = n)) as [->|]; [congruence | lia]. }
    exists j'. split; [lia|]. split; [exact Hp'|]. intros k Hk.
    destruct (decide (k = n)) as [->|]; [exact Hn | apply Hlast; lia].
Qed.

(** Disjoint mode leaves out no sample all of whose classes are known
    (in the class order, or 0 or 255) and one of which is in the class
    order: it goes to the last task that introduces one of its
    classes. *)
Theorem disjoint_assigns_known_sample (paths : list Path) increments
    class_order (i : nat) (path : Path) (c0 : Z) :
  Forall (fun inc => 0 <= inc) increments ->
  len class_order <= sum increments ->
  paths !! i = Some path ->
  c0 ∈ sample_classes pixels path -> c0 ∈ class_order ->
  (forall c, c ∈ sample_classes pixels path ->
             c ∈ class_order \/ c = 0 \/ c = 255) ->
  exists t j,
    _filter_images pixels paths increments class_order "disjoint" = Ok t
    /\ (j < length increments)%nat /\ cell t i j = Some 1
    /\ forall k c, (j < k < length increments)%nat ->
                   c ∈ sample_classes pixels path ->
                   c ∉ task_slice class_order increments k.
Proof.
  intros Hpos Hsum Hi Hc0 Hco0 Hknown.
  destruct (filter_images_cells pixels paths increments class_order "disjoint"
              ltac:(right; reflexivity)) as (t & Hrun & _ & Hcell).
  set (classes := sample_classes pixels path) in *.
  set (p := fun j => any (fun c => contains c
                            (task_slice class_order increments j)) classes).
  destruct (last_true p (length increments)) as (j & Hj & Hpj & Hlast).
  { destruct (class_in_some_task class_order increments c0 Hpos Hsum Hco0)
      as (j & Hj & Hslice).
    exists j. split; [exact Hj|]. apply any_contains. exists c0. auto. }
  exists t, j. split; [exact Hrun|]. split; [exact Hj|].
  destruct (lookup_lt_is_Some_2 increments j Hj) as [inc Hinc].
  split.
  - rewrite (Hcell i j path inc Hi Hinc).
    rewrite (proj2 (task_test_disjoint _ _ _ _)); [reflexivity|].
    rewrite <- (task_slice_lookup _ _ _ _ Hinc).
    split; [apply any_contains, Hpj|].
    intros c Hc. destruct (Hknown c Hc) as [Hco|H]; [|tauto].
    destruct (class_in_some_task class_order increments c Hpos Hsum Hco)
      as (k & Hk & Hslice).
    assert (p k = true) as Hpk by (apply any_contains; exists c; auto).
    destruct (Nat.lt_trichotomy k j) as [Hlt|[->|Hgt]].
    + right. left.
      rewrite <- (earlier_classes_prefix _ _ _ Hpos) by lia.
      apply (earlier_classes_later _ _ k j c Hlt). left. exact Hslice.
    + left. exact Hslice.
    + rewrite (Hlast k ltac:(lia)) in Hpk. discriminate.
  - intros k c Hk Hc Hslice.
    assert (p k = true) as Hpk by (apply any_contains; exists c; auto).
    rewrite (Hlast k Hk) in Hpk. discriminate.
Qed.

End Filter.

Lemma filter_images_binary_witness :
  exists t,
    _filter_images fixture_pixels fixture_paths [1; 1] [1; 2] "disjoint" = Ok t
    /\ length t = length fixture_paths
    /\ Forall (fun row => length row = length [1; 1]
                          /\ Forall (fun v => v = 0 \/ v = 1) row) t.
Proof.
  apply (filter_images_binary fixture_pixels fixture_paths [1; 1] [1; 2]
           "disjoint").
  right. reflexivity.
Defined.

Lemma filter_images_unknown_mode_witness :
  _filter_images fixture_pixels fixture_paths [1; 1] [1; 2] "other"
  = Raise ValueError.
Proof.
  apply (filter_images_unknown_mode fixture_pixels fixture_paths [1; 1] [1; 2]
           "other").
  intros [H|H]; discriminate H.
Defined.

Lemma sample_without_known_class_witness :
  exists t,
    _filter_images fixture_pixels [[1; 2]; [0; 255; 0]] [1; 1] [1; 2] "overlap"
    = Ok t
    /\ cell t 1 1 = Some 0.
Proof.
  apply (sample_without_known_class fixture_pixels [[1; 2]; [0; 255; 0]]
           [1; 1] [1; 2] "overlap" 1%nat 1%nat [0; 255; 0]).
  - left. reflexivity.
  - reflexivity.
  - simpl. lia.
  - intros c. change (sample_classes fixture_pixels [0; 255; 0]) with [0; 255].
    rewrite !elem_of_cons, !elem_of_nil. intros [->|[->|[]]] [H|[H|[]]];
      discriminate H.
Defined.

Lemma disjoint_foreign_class_witness :
  exists t,
    _filter_images fixture_pixels [[1; 7]] [1; 1] [1; 2] "disjoint" = Ok t
    /\ cell t 0 0 = Some 0.
Proof.
  apply (disjoint_foreign_class fixture_pixels [[1; 7]] [1; 1] [1; 2]
           0%nat 0%nat [1; 7] 7).
  - reflexivity.
  - simpl. lia.
  - change (sample_classes fixture_pixels [1; 7]) with [1; 7].
    apply list_elem_of_further, list_elem_of_here.
  - rewrite !elem_of_cons, elem_of_nil. intros [H|[H|[]]]; discriminate H.
  - discriminate.
  - discriminate.
Defined.

Lemma disjoint_at_most_one_task_witness :
  exists t,
    _filter_images fixture_pixels fixture_paths [1; 1] [1; 2] "disjoint" = Ok t
    /\ (cell t 0 0 = Some 1 -> cell t 0 1 = Some 1 -> 0%nat = 1%nat).
Proof.
  apply (disjoint_at_most_one_task fixture_pixels fixture_paths [1; 1] [1; 2]
           0%nat 0%nat 1%nat).
  - repeat constructor; rewrite ?elem_of_cons, ?elem_of_nil;
      intros H; repeat destruct H as [H|H]; (discriminate H || exact H).
  - rewrite !elem_of_cons, elem_of_nil. intros [H|[H|[]]]; discriminate H.
  - rewrite !elem_of_cons, elem_of_nil. intros [H|[H|[]]]; discriminate H.
  - repeat constructor; lia.
Defined.

Lemma overlap_covers_known_class_witness :
  exists t j,
    _filter_images fixture_pixels [[0; 2; 9]] [1; 1] [1; 2] "overlap" = Ok t
    /\ (j < length [1; 1])%nat /\ cell t 0 j = Some 1.
Proof.
  apply (overlap_covers_known_class fixture_pixels [[0; 2; 9]] [1; 1] [1; 2]
           0%nat [0; 2; 9] 2).
  - repeat constructor; lia.
  - unfold len, sum. simpl. lia.
  - reflexivity.
  - change (sample_classes fixture_pixels [0; 2; 9]) with [0; 2; 9].
    apply list_elem_of_further, list_elem_of_here.
  - apply list_elem_of_further, list_elem_of_here.
Defined.

Lemma disjoint_assigns_known_sample_witness :
  exists t j,
    _filter_images fixture_pixels fixture_paths [1; 1] [1; 2] "disjoint" = Ok t
    /\ (j < length [1; 1])%nat /\ cell t 0 j = Some 1
    /\ forall k c, (j < k < length [1; 1])%nat ->
                   c ∈ sample_classes fixture_pixels [1; 2; 2; 1] ->
                   c ∉ task_slice [1; 2] [1; 1] k.
Proof.
  apply (disjoint_assigns_known_sample fixture_pixels fixture_paths [1; 1]
           [1; 2] 0%nat [1; 2; 2; 1] 1).
  - repeat constructor; lia.
  - unfold len, sum. simpl. lia.
  - reflexivity.
  - change (sample_classes fixture_pixels [1; 2; 2; 1]) with [1; 2].
    apply list_elem_of_here.
  - apply list_elem_of_here.
  - intros c. change (sample_classes fixture_pixels [1; 2; 2; 1]) with [1; 2].
    intros Hc. left. exact Hc.
Defined.

End FilterProperties.

(** ** Further properties of the segmentation scenario *)

Module ScenarioProperties.

Import PyFacts Segmentation SegmentationFacts ScenarioFacts.

Lemma getitem_in_range {A : Type} (l : list A) (t : Z) :
  - len l <= t < len l -> exists a, getitem l t = Ok a.
Proof.
  intros Ht. unfold getitem, len in *.
  destruct (Z.ltb_spec t 0).
  - destruct (Z.ltb_spec (t + Z.of_nat (length l)) 0); [lia|].
    destruct (lookup_lt_is_Some_2 l (Z.to_nat (t + Z.of_nat (length l))))
      as [a Ha]; [lia|].
    rewrite Ha. eauto.
  - destruct (Z.ltb_spec t 0); [lia|].
    destruct (lookup_lt_is_Some_2 l (Z.to_nat t)) as [a Ha]; [lia|].
    rewrite Ha. eauto.
Qed.

Lemma getitem_out_of_range {A : Type} (l : list A) (t : Z) :
  ~ (- len l <= t < len l) -> getitem l t = Raise IndexError.
Proof.
  intros Ht. unfold getitem, len in *.
  destruct (Z.ltb_spec t 0).
  - destruct (Z.ltb_spec (t + Z.of_nat (length l)) 0); [reflexivity|].
    rewrite lookup_ge_None_2 by lia. reflexivity.
  - destruct (Z.ltb_spec t 0); [lia|].
    rewrite lookup_ge_None_2 by lia. reflexivity.
Qed.

(** [l[t]] and [l[:t]] with [t] counted from the end. *)
Lemma getitem_from_end {A : Type} (l : list A) (t : Z) :
  - len l <= t < 0 -> getitem l t = getitem l (t + len l).
Proof.
  intros Ht. unfold getitem.
  assert ((t <? 0) = true) as -> by (apply Z.ltb_lt; lia).
  cbv beta iota zeta.
  assert ((t + len l <? 0) = false) as Hge by (apply Z.ltb_ge; lia).
  rewrite !Hge. reflexivity.
Qed.

Lemma slice_to_from_end {A : Type} (l : list A) (t : Z) :
  - len l <= t < 0 -> slice_to l t = slice_to l (t + len l).
Proof.
  intros Ht. unfold slice_to, slice, slice_bound.
  assert ((t <? 0) = true) as -> by (apply Z.ltb_lt; lia).
  assert ((t + len l <? 0) = false) as -> by (apply Z.ltb_ge; lia).
  cbv beta iota zeta.
  rewrite (Z.max_r 0 (t + len l)), (Z.min_l (t + len l) (len l)) by lia.
  reflexivity.
Qed.

(** The dense range that [_setup] takes as class order. *)
Lemma elem_of_range (a b c : Z) : c ∈ range a b <-> a <= c < b.
Proof.
  unfold range. rewrite list_elem_of_In, in_map_iff. split.
  - intros (k & <- & Hk). apply in_seq in Hk. lia.
  - intros Hc. exists (Z.to_nat (c - a)). split; [lia|]. apply in_seq. lia.
Qed.

Lemma index_map_seq (a v : Z) (n k : nat) :
  a + Z.of_nat k <= v < a + Z.of_nat k + Z.of_nat n ->
  index (map (fun i => a + Z.of_nat i) (seq k n)) v
  = Ok (v - a - Z.of_nat k).
Proof.
  revert k. induction n as [|n IH]; intros k Hv; [lia|]. simpl.
  destruct (decide (a + Z.of_nat k = v)) as [<-|Hne].
  - f_equal. lia.
  - rewrite IH by lia. rewrite bind_Ok_l. f_equal. lia.
Qed.

Lemma index_range (a b v : Z) : a <= v < b -> index (range a b) v = Ok (v - a).
Proof.
  intros Hv. unfold range. rewrite index_map_seq by lia. f_equal. lia.
Qed.

Section Scenario.

Context {X Path DataType Trsf : Type}.
Variable pixels : Path -> list Z.
Variable _define_increments : Increment -> Z -> list Z -> result (list Z).
Variable _select_data_by_task :
  @Scenario X Path DataType Trsf -> TaskIndex ->
  result (list X * list Path * list (list Z) * TaskIndexes).

Local Abbreviation Scenario := (@Scenario X Path DataType Trsf).

(** [_get_task_labels] on tasks of the scenario: the labels are the
    classes of the slices of the selected tasks, each listed once. *)
Theorem task_labels_union (self : Scenario) co task_indexes :
  class_order self = Some co ->
  Forall (fun t => - len (_increments self) <= t < len (_increments self))
         (task_list task_indexes) ->
  exists labels,
    _get_task_labels self task_indexes = Ok labels
    /\ NoDup labels
    /\ (forall c, c ∈ labels -> c ∈ co)
    /\ forall c, c ∈ labels
                 <-> exists t, t ∈ task_list task_indexes
                               /\ labels_of co (_increments self) t c.
Proof.
  intros Hco Hvalid.
  assert (Forall (fun t => exists inc, getitem (_increments self) t = Ok inc)
                 (task_list task_indexes)) as Hget.
  { eapply Forall_impl; [exact Hvalid|]. intros t Ht.
    apply getitem_in_range, Ht. }
  destruct (task_labels_loop self co Hco (task_list task_indexes) ∅ Hget)
    as (labels & Hloop & Hmem).
  exists (elements labels). unfold _get_task_labels.
  fold (task_list task_indexes). rewrite Hloop, bind_Ok_l.
  split; [reflexivity|]. split; [apply NoDup_elements|].
  assert (forall c, c ∈ elements labels
                    <-> exists t, t ∈ task_list task_indexes
                                  /\ labels_of co (_increments self) t c) as H.
  { intros c. rewrite elem_of_elements, Hmem, elem_of_empty.
    split; [intros [[]|Hc]; exact Hc | intros Hc; right; exact Hc]. }
  split; [|exact H].
  intros c Hc. apply H in Hc as (t & _ & inc & _ & Hc).
  eapply slice_elem_of, Hc.
Qed.

Lemma task_labels_loop_error (self : Scenario) co :
  class_order self = Some co ->
  forall ts labels,
    Exists (fun t => ~ (- len (_increments self) <= t
                        < len (_increments self))) ts ->
    for_each (add_task_labels self) labels ts = Raise IndexError.
Proof.
  intros Hco. induction ts as [|t ts IH]; intros labels Hbad.
  - inversion Hbad.
  - rewrite for_each_cons.
    destruct (decide (- len (_increments self) <= t < len (_increments self)))
      as [Hin|Hout].
    + destruct (getitem_in_range _ _ Hin) as [inc Hinc].
      rewrite (add_task_labels_step self co labels t inc Hco Hinc), bind_Ok_l.
      apply IH. apply Exists_cons in Hbad as [Hbad|Hbad]; [contradiction|].
      exact Hbad.
    + unfold add_task_labels. rewrite (getitem_out_of_range _ _ Hout).
      reflexivity.
Qed.

Lemma task_labels_index_error_loop (self : Scenario) co task_indexes :
  class_order self = Some co ->
  Exists (fun t => ~ (- len (_increments self) <= t < len (_increments self)))
         (task_list task_indexes) ->
  _get_task_labels self task_indexes = Raise IndexError.
Proof.
  intros Hco Hbad. unfold _get_task_labels. fold (task_list task_indexes).
  rewrite (task_labels_loop_error self co Hco _ _ Hbad). reflexivity.
Qed.

(** A task index outside [-len .. len - 1] makes [_get_task_labels]
    raise [IndexError]. *)
Theorem task_labels_index_error (self : Scenario) co task_indexes :
  class_order self = Some co ->
  Exists (fun t => ~ (- len (_increments self) <= t < len (_increments self)))
         (task_list task_indexes) ->
  _get_task_labels self task_indexes = Raise IndexError.
Proof.
  intros Hco Hbad. unfold _get_task_labels. fold (task_list task_indexes).
  rewrite (task_labels_loop_error self co Hco _ _ Hbad). reflexivity.
Qed.

(** A negative task index names a task from the end: the labels of
    task [t] are those of task [t + len(increments)]. *)
Theorem task_labels_from_end (self : Scenario) (t : Z) :
  - len (_increments self) <= t < 0 ->
  _get_task_labels self (One t)
  = _get_task_labels self (One (t + len (_increments self))).
Proof.
  intros Ht. unfold _get_task_labels. rewrite !for_each_cons.
  unfold add_task_labels.
  rewrite (getitem_from_end _ _ Ht), (slice_to_from_end _ _ Ht).
  reflexivity.
Qed.

(** What a successful [_setup] leaves in the scenario. *)
Lemma setup_inv (self self' : Scenario) nb_tasks n :
  _setup pixels _define_increments self nb_tasks = Ok (self', n) ->
  class_order self' = Some (range 1 (_nb_classes self + 1))
  /\ _define_increments (increment self) (initial_increment self)
                        (range 1 (_nb_classes self + 1))
     = Ok (_increments self')
  /\ n = len (_increments self')
  /\ (exists t,
        _filter_images pixels (get_data (cl_dataset self)).2
                       (_increments self') (range 1 (_nb_classes self + 1))
                       (mode self) = Ok t
        /\ dataset self' = ((get_data (cl_dataset self)).1,
                            (get_data (cl_dataset self)).2, t))
  /\ cl_dataset self' = cl_dataset self /\ mode self' = mode self
  /\ test_background self' = test_background self
  /\ trsf self' = trsf self /\ _nb_classes self' = _nb_classes self.
Proof.
  unfold _setup. destruct (get_data (cl_dataset self)) as [x y].
  destruct (_define_increments _ _ _) as [incs|e]; [|discriminate].
  rewrite bind_Ok_l.
  destruct (_filter_images _ _ _ _ _) as [t|e] eqn:Ht; [|discriminate].
  rewrite bind_Ok_l. intros [= <- <-]. simpl.
  repeat split; try reflexivity. exists t. split; [exact Ht | reflexivity].
Qed.

(** [_setup] returns as soon as the increments are resolved and the
    mode is known; the number it returns is the number of columns of
    the membership matrix, which has one row per label map and holds
    zeros and ones only. *)
Theorem setup_membership_matrix (self : Scenario) nb_tasks increments :
  known_mode (mode self) ->
  _define_increments (increment self) (initial_increment self)
                     (range 1 (_nb_classes self + 1)) = Ok increments ->
  exists self' t,
    _setup pixels _define_increments self nb_tasks
    = Ok (self', len increments)
    /\ _increments self' = increments
    /\ dataset self' = ((get_data (cl_dataset self)).1,
                        (get_data (cl_dataset self)).2, t)
    /\ length t = length (get_data (cl_dataset self)).2
    /\ Forall (fun row => len row = len increments
                          /\ Forall (fun v => v = 0 \/ v = 1) row) t.
Proof.
  intros Hmode Hincs. unfold _setup.
  destruct (get_data (cl_dataset self)) as [x y]. rewrite Hincs, bind_Ok_l.
  destruct (filter_images_cells pixels y increments
              (range 1 (_nb_classes self + 1)) (mode self) Hmode)
    as (t & Hrun & [Hrows Hcols] & Hcell).
  rewrite Hrun, bind_Ok_l. do 2 eexists. split; [reflexivity|].
  split; [reflexivity|]. split; [reflexivity|]. split; [exact Hrows|].
  apply Forall_forall. intros row Hrow.
  pose proof (proj1 (Forall_forall _ _) Hcols row Hrow) as Hlen.
  split; [unfold len; f_equal; exact Hlen|]. apply Forall_forall. intros v Hv.
  apply list_elem_of_lookup in Hrow as [i Hi].
  apply list_elem_of_lookup in Hv as [j Hj].
  destruct (lookup_lt_is_Some_2 y i) as [path Hpath].
  { rewrite <- Hrows. eapply lookup_lt_Some, Hi. }
  destruct (lookup_lt_is_Some_2 increments j) as [inc Hinc].
  { rewrite <- Hlen. eapply lookup_lt_Some, Hj. }
  specialize (Hcell i j path inc Hpath Hinc).
  unfold cell in Hcell. rewrite Hi in Hcell. simpl in Hcell.
  rewrite Hj in Hcell. injection Hcell as ->.
  destruct (task_test _ _ _ _ _); [right | left]; reflexivity.
Qed.

Lemma labels_of_one co (increments : list Z) (j : nat) inc v :
  increments !! j = Some inc ->
  (exists t, t ∈ task_list (One (Z.of_nat j)) /\ labels_of co increments t v)
  <-> v ∈ task_slice co increments j.
Proof.
  intros Hinc. pose proof (getitem_nat _ _ _ Hinc) as Hget.
  rewrite (task_slice_lookup _ _ _ _ Hinc). simpl. split.
  - intros (t' & Ht' & inc' & Hinc' & Hv).
    apply list_elem_of_singleton in Ht' as ->.
    rewrite Hget in Hinc'. injection Hinc' as <-. exact Hv.
  - intros Hv. exists (Z.of_nat j). split; [apply list_elem_of_here|].
    exists inc. split; assumption.
Qed.

(** After [_setup] the class order is the dense range, so that the task
    set of task [j] remaps each class [c] of that task to [c - 1] (in
    test mode, unless [c] is 255): class 1 becomes 0. *)
Theorem remap_after_setup (self self' : Scenario) nb_tasks n task_index
    x y t (j : nat) :
  _setup pixels _define_increments self nb_tasks = Ok (self', n) ->
  known_mode (mode self) -> unstepped task_index ->
  _select_data_by_task self' task_index = Ok (x, y, t, One (Z.of_nat j)) ->
  Z.of_nat j < n ->
  exists ts (remap : Z -> Z),
    __getitem__ _select_data_by_task self' task_index = Ok ts
    /\ (forall seg_map, target_trsf ts seg_map = remap <$> seg_map)
    /\ forall c,
         c ∈ task_slice (range 1 (_nb_classes self + 1)) (_increments self') j ->
         1 <= c <= _nb_classes self
         /\ (train (cl_dataset self) = true \/ c <> 255 -> remap c = c - 1).
Proof.
  intros Hsetup Hmode Hstep Hsel Hj.
  destruct (setup_inv _ _ _ _ Hsetup)
    as (Hco & _ & Hn & _ & Hds & Hmode' & _).
  assert (j < length (_increments self'))%nat as Hjlen
    by (unfold len in Hn; lia).
  destruct (lookup_lt_is_Some_2 (_increments self') j Hjlen) as [inc Hinc].
  destruct (getitem_spec _select_data_by_task self' task_index x y t
              (One (Z.of_nat j)) _ Hco ltac:(rewrite Hmode'; exact Hmode)
              Hstep Hsel) as (ts & d & Hts & Htrsf & Hdict).
  { repeat constructor. exists inc. apply getitem_nat, Hinc. }
  exists ts, (fun v => dict_get (completed self' d) v 0).
  split; [exact Hts|]. split; [exact Htrsf|]. intros c Hc.
  assert (1 <= c <= _nb_classes self) as Hrange.
  { rewrite (task_slice_lookup _ _ _ _ Hinc) in Hc.
    apply slice_elem_of, elem_of_range in Hc. lia. }
  split; [exact Hrange|]. intros Hcase.
  destruct (proj1 (Hdict c)) as (p & Hp & Hlook).
  { apply (labels_of_one _ _ _ _ _ Hinc), Hc. }
  rewrite index_range in Hp by lia. injection Hp as <-.
  unfold dict_get, completed. rewrite Hds.
  destruct (train (cl_dataset self)); simpl.
  - rewrite Hlook. simpl. lia.
  - destruct Hcase as [|H255]; [discriminate|].
    rewrite !lookup_insert_ne by lia. rewrite Hlook. simpl. lia.
Qed.

(** A request resolved to several tasks: the classes of every selected
    task are remapped to their position in the class order (outside
    train mode, 0 and 255 excepted). *)
Theorem remap_selected_tasks (self : Scenario) task_index x y t
    task_indexes co :
  class_order self = Some co -> known_mode (mode self) ->
  unstepped task_index ->
  _select_data_by_task self task_index = Ok (x, y, t, task_indexes) ->
  Forall (fun t => - len (_increments self) <= t < len (_increments self))
         (task_list task_indexes) ->
  exists ts (remap : Z -> Z),
    __getitem__ _select_data_by_task self task_index = Ok ts
    /\ (forall seg_map, target_trsf ts seg_map = remap <$> seg_map)
    /\ forall c task,
         task ∈ task_list task_indexes ->
         labels_of co (_increments self) task c ->
         train (cl_dataset self) = true \/ (c <> 0 /\ c <> 255) ->
         index co c = Ok (remap c).
Proof.
  intros Hco Hmode Hstep Hsel Hvalid.
  destruct (getitem_spec _select_data_by_task self task_index x y t
              task_indexes co Hco Hmode Hstep Hsel)
    as (ts & d & Hts & Htrsf & Hdict).
  { eapply Forall_impl; [exact Hvalid|]. intros t' Ht'.
    apply getitem_in_range, Ht'. }
  exists ts, (fun v => dict_get (completed self d) v 0).
  split; [exact Hts|]. split; [exact Htrsf|]. intros c task Htask Hc Hcase.
  destruct (proj1 (Hdict c)) as (p & Hp & Hlook); [eauto|].
  rewrite Hp. f_equal. unfold dict_get, completed.
  destruct (train (cl_dataset self)); simpl.
  - rewrite Hlook. reflexivity.
  - destruct Hcase as [|[H0 H255]]; [discriminate|].
    rewrite !lookup_insert_ne by congruence. rewrite Hlook. reflexivity.
Qed.

(** The values of the remap function: 0, a position in the class order,
    or, outside train mode only, 255.  Outside train mode an identifier
    that is no label of the selected tasks, nor 0, nor 255, is sent to
    0 as in train mode. *)
Theorem remap_values (self : Scenario) task_index x y t task_indexes co :
  class_order self = Some co -> known_mode (mode self) ->
  unstepped task_index ->
  _select_data_by_task self task_index = Ok (x, y, t, task_indexes) ->
  Forall (fun t => - len (_increments self) <= t < len (_increments self))
         (task_list task_indexes) ->
  exists ts (remap : Z -> Z),
    __getitem__ _select_data_by_task self task_index = Ok ts
    /\ (forall seg_map, target_trsf ts seg_map = remap <$> seg_map)
    /\ (forall v, remap v = 0 \/ 0 <= remap v < len co
                  \/ (train (cl_dataset self) = false /\ remap v = 255))
    /\ (forall v,
          ~ (exists task, task ∈ task_list task_indexes
                          /\ labels_of co (_increments self) task v) ->
          v <> 0 -> v <> 255 -> remap v = 0).
Proof.
  intros Hco Hmode Hstep Hsel Hvalid.
  assert (Forall (fun t => exists inc, getitem (_increments self) t = Ok inc)
                 (task_list task_indexes)) as Hget.
  { eapply Forall_impl; [exact Hvalid|]. intros t' Ht'.
    apply getitem_in_range, Ht'. }
  destruct (getitem_spec _select_data_by_task self task_index x y t
              task_indexes co Hco Hmode Hstep Hsel Hget)
    as (ts & d & Hts & Htrsf & Hdict).
  destruct (get_task_labels_spec _select_data_by_task self co task_indexes
              Hco Hget) as (labels & _ & Hlabels).
  exists ts, (fun v => dict_get (completed self d) v 0).
  split; [exact Hts|]. split; [exact Htrsf|].
  assert (forall v, default 0 (d !! v) = 0 \/ 0 <= default 0 (d !! v) < len co)
    as Hd2.
  { intros v.
    destruct (decide (v ∈ labels)) as [Hl|Hl]; rewrite Hlabels in Hl.
    - destruct (proj1 (Hdict v) Hl) as (p & Hp & Hlook). rewrite Hlook. simpl.
      destruct (index_position co v p Hp) as (Hp0 & Hpos & _).
      apply lookup_lt_Some in Hpos. right. unfold len. lia.
    - rewrite (proj2 (Hdict v) Hl). left. reflexivity. }
  assert (forall v (b : bool),
            default 0 (d !! v) = 0 \/ 0 <= default 0 (d !! v) < len co
            \/ (b = false /\ default 0 (d !! v) = 255)) as Hd
    by (intros v b; destruct (Hd2 v); tauto).
  split.
  - intros v. unfold dict_get, completed.
    destruct (train (cl_dataset self)); simpl; [apply Hd|].
    destruct (decide (v = 255)) as [->|H255].
    { rewrite lookup_insert_eq. right. right. split; reflexivity. }
    rewrite lookup_insert_ne by congruence.
    destruct (decide (v = 0)) as [->|H0].
    { rewrite lookup_insert_eq. simpl.
      destruct (test_background self); [left; reflexivity|].
      right. right. split; reflexivity. }
    rewrite lookup_insert_ne by congruence. apply Hd.
  - intros v Hl H0 H255. unfold dict_get, completed.
    destruct (train (cl_dataset self)); simpl.
    + rewrite (proj2 (Hdict v) Hl). reflexivity.
    + rewrite !lookup_insert_ne by congruence.
      rewrite (proj2 (Hdict v) Hl). reflexivity.
Qed.

(** The errors of [__getitem__]: a slice with a step is refused with
    [ValueError] whatever the scenario and the data selection; an error
    of the data selection is passed on; with a mode that is neither of
    the two, [label_trsf] is never bound and building the task set
    raises [UnboundLocalError]; a resolved task index outside the
    increments raises [IndexError]. *)
Theorem getitem_errors (self : Scenario) (task_index : TaskIndex) :
  (~ unstepped task_index ->
   __getitem__ _select_data_by_task self task_index = Raise ValueError)
  /\ (forall e,
        unstepped task_index ->
        _select_data_by_task self task_index = Raise e ->
        __getitem__ _select_data_by_task self task_index = Raise e)
  /\ (forall x y t task_indexes,
        unstepped task_index ->
        _select_data_by_task self task_index = Ok (x, y, t, task_indexes) ->
        ~ known_mode (mode self) ->
        __getitem__ _select_data_by_task self task_index
        = Raise UnboundLocalError)
  /\ (forall x y t task_indexes co,
        unstepped task_index ->
        _select_data_by_task self task_index = Ok (x, y, t, task_indexes) ->
        known_mode (mode self) -> class_order self = Some co ->
        Exists (fun t => ~ (- len (_increments self) <= t
                            < len (_increments self)))
               (task_list task_indexes) ->
        __getitem__ _select_data_by_task self task_index = Raise IndexError).
Proof.
  assert (unstepped task_index ->
          match task_index with
          | Slice _ _ (Some _) => Raise ValueError
          | _ => Ok ()
          end = Ok ()) as Hok
    by (destruct task_index as [|? ? [|]]; simpl; tauto).
  repeat split.
  - intros Hstep. unfold __getitem__.
    destruct task_index as [|? ? [|]]; simpl in Hstep;
      solve [reflexivity | tauto].
  - intros e Hstep Hsel. unfold __getitem__.
    rewrite (Hok Hstep), bind_Ok_l, Hsel. reflexivity.
  - intros x y t tis Hstep Hsel Hmode. unfold __getitem__.
    rewrite (Hok Hstep), bind_Ok_l, Hsel, bind_Ok_l.
    rewrite decide_False by exact Hmode. reflexivity.
  - intros x y t tis co Hstep Hsel Hmode Hco Hbad. unfold __getitem__.
    rewrite (Hok Hstep), bind_Ok_l, Hsel, bind_Ok_l.
    rewrite decide_True by exact Hmode.
    rewrite (task_labels_index_error_loop self co tis Hco Hbad). reflexivity.
Qed.

End Scenario.

Section NbClasses.

Context {X Path DataType Trsf : Type} `{EqDecision Path}.
Variable pixels : Path -> list Z.
Variable _define_increments : Increment -> Z -> list Z -> result (list Z).

Lemma length_remove_dups (l : list Path) :
  (length (remove_dups l) <= length l)%nat.
Proof.
  induction l as [|x l IH]; simpl; [lia|].
  destruct (decide_rel elem_of x l); simpl; lia.
Qed.

Lemma remove_dups_NoDup (l : list Path) : NoDup l -> remove_dups l = l.
Proof.
  induction 1 as [|x l Hx Hnd IH]; simpl; [reflexivity|].
  destruct (decide_rel elem_of x l) as [Hin|_]; [contradiction|].
  rewrite IH. reflexivity.
Qed.

(** After [_setup] the property [nb_classes] is the number of distinct
    paths of label maps of the dataset: it is at most the number of
    samples, it is that number when no path is repeated, and it is
    whatever [_nb_classes] the scenario was built with. *)
Theorem nb_classes_counts_label_maps
    (self self' : @Scenario X Path DataType Trsf) nb_tasks n :
  _setup pixels _define_increments self nb_tasks = Ok (self', n) ->
  nb_classes self' = len (remove_dups (get_data (cl_dataset self)).2)
  /\ 0 <= nb_classes self' <= len (get_data (cl_dataset self)).2
  /\ (NoDup (get_data (cl_dataset self)).2 ->
      nb_classes self' = len (get_data (cl_dataset self)).2).
Proof.
  intros Hsetup.
  destruct (setup_inv _ _ _ _ _ _ Hsetup)
    as (_ & _ & _ & (t & _ & Hds) & _).
  unfold nb_classes. rewrite Hds. simpl. split; [reflexivity|]. split.
  - pose proof (length_remove_dups (get_data (cl_dataset self)).2).
    unfold len. lia.
  - intros Hnd. rewrite (remove_dups_NoDup _ Hnd). reflexivity.
Qed.

End NbClasses.

Lemma task_labels_union_witness :
  exists labels,
    _get_task_labels three_classes (Many [0; 1]) = Ok labels
    /\ NoDup labels
    /\ (forall c, c ∈ labels -> c ∈ [1; 2; 3])
    /\ forall c, c ∈ labels
                 <-> exists t, t ∈ task_list (Many [0; 1])
                               /\ labels_of [1; 2; 3]
                                    (_increments three_classes) t c.
Proof.
  apply (task_labels_union three_classes [1; 2; 3] (Many [0; 1])).
  - reflexivity.
  - repeat constructor; unfold len; simpl; lia.
Defined.

Lemma task_labels_index_error_witness :
  _get_task_labels three_classes (One 2) = Raise IndexError.
Proof.
  apply (task_labels_index_error three_classes [1; 2; 3] (One 2)).
  - reflexivity.
  - constructor. unfold len. simpl. lia.
Defined.

Lemma task_labels_from_end_witness :
  _get_task_labels three_classes (One (-1))
  = _get_task_labels three_classes
      (One (-1 + len (_increments three_classes))).
Proof.
  apply (task_labels_from_end three_classes (-1)).
  unfold len. simpl. lia.
Defined.

Lemma setup_membership_matrix_witness :
  exists self' t,
    _setup fixture_pixels define_increments
           (fixture_scenario false false 3 [1; 2] None
                             [[1; 0]; [2; 3]; [1; 3; 255]]) 0
    = Ok (self', len [1; 2])
    /\ _increments self' = [1; 2]
    /\ dataset self' = ([tt; tt; tt], [[1; 0]; [2; 3]; [1; 3; 255]], t)
    /\ length t = 3%nat
    /\ Forall (fun row => len row = len [1; 2]
                          /\ Forall (fun v => v = 0 \/ v = 1) row) t.
Proof.
  apply (setup_membership_matrix fixture_pixels define_increments
           (fixture_scenario false false 3 [1; 2] None
                             [[1; 0]; [2; 3]; [1; 3; 255]]) 0 [1; 2]).
  - left. reflexivity.
  - reflexivity.
Defined.

Lemma remap_after_setup_witness :
  exists ts (remap : Z -> Z),
    __getitem__ select_data_by_task three_classes (Index 1) = Ok ts
    /\ (forall seg_map, target_trsf ts seg_map = remap <$> seg_map)
    /\ forall c,
         c ∈ task_slice (range 1 (3 + 1)) (_increments three_classes) 1 ->
         1 <= c <= 3
         /\ (false = true \/ c <> 255 -> remap c = c - 1).
Proof.
  apply (remap_after_setup fixture_pixels define_increments
           select_data_by_task
           (fixture_scenario false false 3 [1; 2] None
                             [[1; 0]; [2; 3]; [1; 3; 255]])
           three_classes 0 2 (Index 1)
           [tt; tt] [[2; 3]; [1; 3; 255]] [[0; 1]; [1; 1]] 1%nat).
  - reflexivity.
  - left. reflexivity.
  - exact I.
  - reflexivity.
  - lia.
Defined.

Lemma remap_selected_tasks_witness :
  exists ts (remap : Z -> Z),
    __getitem__ select_data_by_task three_classes (Slice None None None)
    = Ok ts
    /\ (forall seg_map, target_trsf ts seg_map = remap <$> seg_map)
    /\ forall c task,
         task ∈ task_list (Many [0; 1]) ->
         labels_of [1; 2; 3] (_increments three_classes) task c ->
         train (cl_dataset three_classes) = true \/ (c <> 0 /\ c <> 255) ->
         index [1; 2; 3] c = Ok (remap c).
Proof.
  apply (remap_selected_tasks select_data_by_task three_classes
           (Slice None None None)
           [tt; tt; tt] [[1; 0]; [2; 3]; [1; 3; 255]]
           [[1; 0]; [0; 1]; [1; 1]] (Many [0; 1]) [1; 2; 3]).
  - reflexivity.
  - left. reflexivity.
  - exact I.
  - reflexivity.
  - repeat constructor; unfold len; simpl; lia.
Defined.

Lemma remap_values_witness :
  exists ts (remap : Z -> Z),
    __getitem__ select_data_by_task three_classes (Index 1) = Ok ts
    /\ (forall seg_map, target_trsf ts seg_map = remap <$> seg_map)
    /\ (forall v, remap v = 0 \/ 0 <= remap v < len [1; 2; 3]
                  \/ (train (cl_dataset three_classes) = false
                      /\ remap v = 255))
    /\ (forall v,
          ~ (exists task, task ∈ task_list (One 1)
                          /\ labels_of [1; 2; 3]
                               (_increments three_classes) task v) ->
          v <> 0 -> v <> 255 -> remap v = 0).
Proof.
  apply (remap_values select_data_by_task three_classes (Index 1)
           [tt; tt] [[2; 3]; [1; 3; 255]] [[0; 1]; [1; 1]] (One 1) [1; 2; 3]).
  - reflexivity.
  - left. reflexivity.
  - exact I.
  - reflexivity.
  - repeat constructor; unfold len; simpl; lia.
Defined.

Lemma nb_classes_counts_label_maps_witness :
  nb_classes three_classes
  = len (remove_dups [[1; 0]; [2; 3]; [1; 3; 255]])
  /\ 0 <= nb_classes three_classes <= len [[1; 0]; [2; 3]; [1; 3; 255]]
  /\ (NoDup [[1; 0]; [2; 3]; [1; 3; 255]] ->
      nb_classes three_classes = len [[1; 0]; [2; 3]; [1; 3; 255]]).
Proof.
  apply (nb_classes_counts_label_maps fixture_pixels define_increments
           (fixture_scenario false false 3 [1; 2] None
                             [[1; 0]; [2; 3]; [1; 3; 255]])
           three_classes 0 2).
  reflexivity.
Defined.

End ScenarioProperties.

(** ** Further properties of the transformation-incremental scenario *)

Module TransformationProperties.

Import PyFacts Transformation TransformationFacts.

Section Scenario.

Context {X DataType Callable : Type}.
Variable _select_data_by_task :
  @Scenario X DataType Callable -> Z -> result (list X * list Z * list Z).

Local Abbreviation Scenario := (@Scenario X DataType Callable).

Lemma set_same_but_task_indexes (self : Scenario) new_t :
  same_but_task_indexes self (set_task_indexes self new_t).
Proof. unfold same_but_task_indexes. repeat split. Qed.

Lemma same_but_task_indexes_refl (self : Scenario) :
  same_but_task_indexes self self.
Proof. unfold same_but_task_indexes. repeat split. Qed.




(** What an access that came back has left of the scenario. *)
Lemma getitem_same_but_task_indexes fuel (self self' : Scenario)
    task_index outcome :
  __getitem__ _select_data_by_task fuel self task_index
  = Some (self', outcome) ->
  same_but_task_indexes self self'.
Proof.
  destruct task_index as [t|start stop step].
  - rewrite getitem_index.
    destruct (resolve_index fuel self t) as [[k|e]|]; [| |discriminate].
    + destruct (float_of_int k) as [v|e]; intros [= <- _].
      * apply set_same_but_task_indexes.
      * apply same_but_task_indexes_refl.
    + intros [= <- _]. apply same_but_task_indexes_refl.
  - intros [= <- _]. apply same_but_task_indexes_refl.
Qed.

(** Whatever the request, an access that comes back leaves the samples,
    their labels, the transformation chains, the number of tasks and the
    data type as they were; a slice is refused with [ValueError] and
    leaves the task-index array alone too. *)
Theorem getitem_keeps_samples fuel (self self' : Scenario) task_index outcome :
  __getitem__ _select_data_by_task fuel self task_index
  = Some (self', outcome) ->
  same_but_task_indexes self self'
  /\ (forall start stop step,
        task_index = Slice start stop step ->
        self' = self /\ outcome = Raise ValueError).
Proof.
  intros Hrun. split.
  - eapply getitem_same_but_task_indexes, Hrun.
  - intros start stop step ->. injection Hrun as <- <-. split; reflexivity.
Qed.


(** On a scenario without task the loop on a negative index never
    ends: no number of iterations lets the access come back. *)
Theorem getitem_negative_without_task fuel (self : Scenario) (t : Z) :
  __len__ self = 0 -> t < 0 ->
  __getitem__ _select_data_by_task fuel self (Index t) = None.
Proof.
  intros Hlen Hneg. rewrite getitem_index. unfold resolve_index.
  destruct (Z.ltb_spec t 0); [|lia].
  rewrite (wrap_negative_no_task fuel self t Hlen Hneg). reflexivity.
Qed.

(** The access at a task [t] of the scenario, one that a double holds,
    returns what the data selection selected on the rewritten array,
    with the chain of task [t] followed by the base chain; an error of
    the data selection is passed on. *)
Theorem getitem_outcome fuel (self : Scenario) (t : Z) :
  one_chain_per_task self -> 0 <= t < __len__ self -> exact_float t ->
  exists chain,
    inc_trsf self !! Z.to_nat t = Some chain
    /\ __getitem__ _select_data_by_task fuel self (Index t)
       = Some (set_task_indexes self (replicate (nb_samples self) t),
               match _select_data_by_task
                       (set_task_indexes self
                          (replicate (nb_samples self) t)) t with
               | Ok train =>
                   Ok {| ts_train := train;
                         ts_trsf := chain ++ trsf_transforms self;
                         ts_data_type := data_type self |}
               | Raise e => Raise e
               end).
Proof.
  intros Hchains Ht Hexact.
  destruct (lookup_lt_is_Some_2 (inc_trsf self) (Z.to_nat t)) as [chain Hc].
  { unfold one_chain_per_task, len in Hchains. lia. }
  exists chain. split; [exact Hc|].
  rewrite getitem_nonneg by (lia || exact Hexact). f_equal. f_equal.
  destruct (_select_data_by_task _ t) as [train|e]; [|reflexivity].
  rewrite bind_Ok_l. unfold get_task_transformation.
  change (inc_trsf (set_task_indexes self (replicate (nb_samples self) t)))
    with (inc_trsf self).
  rewrite <- (Z2Nat.id t) at 1 by lia.
  rewrite (ScenarioFacts.getitem_nat _ _ _ Hc). reflexivity.
Qed.

End Scenario.

Section Init.

Context {X DataType Callable ClDataset : Type}.
Variable super_init :
  ClDataset -> Z -> option (list Callable) ->
  result (@Scenario X DataType Callable).
Variable _setup :
  @Scenario X DataType Callable -> Z ->
  result (@Scenario X DataType Callable * Z).

(** The constructor refuses, with [ValueError] and before [_setup] is
    reached, a missing list of transformation chains and a list whose
    length is not the number of tasks. *)
Theorem init_rejects_mismatch cl_dataset nb_tasks incremental_transformations
    base_transformations self0 :
  super_init cl_dataset nb_tasks base_transformations = Ok self0 ->
  (forall chains, incremental_transformations = Some chains ->
                  len chains <> nb_tasks) ->
  __init__ super_init _setup cl_dataset nb_tasks incremental_transformations
           base_transformations
  = Raise ValueError.
Proof.
  intros Hsuper Hbad. unfold __init__. rewrite Hsuper, bind_Ok_l.
  destruct incremental_transformations as [chains|]; [|reflexivity].
  rewrite decide_True; [reflexivity|].
  intros Heq. apply (Hbad chains eq_refl). symmetry. exact Heq.
Qed.

(** A scenario that the constructor returns was given one chain per
    task; when moreover [_setup] keeps the chains and returns the number
    of tasks it was given, the scenario holds these chains and
    [len(self)] is their number. *)
Theorem init_one_chain_per_task cl_dataset nb_tasks incremental_transformations
    base_transformations self :
  __init__ super_init _setup cl_dataset nb_tasks incremental_transformations
           base_transformations
  = Ok self ->
  exists chains,
    incremental_transformations = Some chains
    /\ len chains = nb_tasks
    /\ ((forall s n s' m, _setup s n = Ok (s', m) ->
                          m = n /\ inc_trsf s' = inc_trsf s) ->
        inc_trsf self = chains /\ one_chain_per_task self).
Proof.
  unfold __init__.
  destruct (super_init cl_dataset nb_tasks base_transformations) as [s0|e];
    [|discriminate].
  rewrite bind_Ok_l.
  destruct incremental_transformations as [chains|]; [|discriminate].
  destruct (decide (nb_tasks <> len chains)) as [|Heq]; [discriminate|].
  apply dec_stable in Heq.
  destruct (_setup _ nb_tasks) as [[s1 n]|e] eqn:Hsetup; [|discriminate].
  rewrite bind_Ok_l. intros [= <-].
  exists chains. split; [reflexivity|]. split; [symmetry; exact Heq|].
  intros Hkeeps. destruct (Hkeeps _ _ _ _ Hsetup) as [-> Hinc].
  simpl in Hinc. unfold one_chain_per_task, __len__. simpl.
  rewrite Hinc. split; [reflexivity | exact Heq].
Qed.

End Init.

Lemma getitem_keeps_samples_witness :
  same_but_task_indexes four_tasks (four_tasks_at 2)
  /\ (forall start stop step,
        Index 2 = Slice start stop step ->
        four_tasks_at 2 = four_tasks
        /\ Ok {| ts_train := ([100%nat; 101%nat; 102%nat], [5; 6; 5],
                              [2; 2; 2]);
                 ts_trsf := [12%nat; 7%nat];
                 ts_data_type := tt |} = Raise ValueError).
Proof.
  apply (getitem_keeps_samples select_data_by_task 0 four_tasks
           (four_tasks_at 2) (Index 2)).
  vm_compute. reflexivity.
Defined.


Lemma getitem_negative_without_task_witness :
  __getitem__ select_data_by_task 1000
              {| data_type := tt; trsf_transforms := [7%nat]; inc_trsf := [];
                 _nb_tasks := 0;
                 dataset := ([100%nat], [5], [5]) |} (Index (-1))
  = None.
Proof.
  apply (getitem_negative_without_task select_data_by_task 1000
           {| data_type := tt; trsf_transforms := [7%nat]; inc_trsf := [];
              _nb_tasks := 0;
              dataset := ([100%nat], [5], [5]) |} (-1)).
  - reflexivity.
  - lia.
Defined.

Lemma getitem_outcome_witness :
  exists chain,
    inc_trsf four_tasks !! Z.to_nat 2 = Some chain
    /\ __getitem__ select_data_by_task 0 four_tasks (Index 2)
       = Some (set_task_indexes four_tasks
                 (replicate (nb_samples four_tasks) 2),
               match select_data_by_task
                       (set_task_indexes four_tasks
                          (replicate (nb_samples four_tasks) 2)) 2
               with
               | Ok train =>
                   Ok {| ts_train := train;
                         ts_trsf := chain ++ trsf_transforms four_tasks;
                         ts_data_type := data_type four_tasks |}
               | Raise e => Raise e
               end).
Proof.
  apply (getitem_outcome select_data_by_task 0 four_tasks 2).
  - reflexivity.
  - unfold __len__. simpl. lia.
  - vm_compute. reflexivity.
Defined.

(** With three tasks and two chains the constructor raises. *)
Lemma init_rejects_mismatch_witness :
  __init__ fixture_super_init fixture_setup
           ([100%nat], [5], [5]) 3 (Some [[10%nat]; [11%nat]]) None
  = Raise ValueError.
Proof.
  apply (init_rejects_mismatch fixture_super_init fixture_setup
           ([100%nat], [5], [5]) 3 (Some [[10%nat]; [11%nat]]) None
           {| data_type := tt; trsf_transforms := []; inc_trsf := [];
              _nb_tasks := 0; dataset := ([100%nat], [5], [5]) |}).
  - reflexivity.
  - intros chains [= <-]. unfold len. simpl. lia.
Defined.

Lemma init_one_chain_per_task_witness :
  exists chains,
    Some [[10%nat]; [11%nat]; [12%nat]; [13%nat]] = Some chains
    /\ len chains = 4
    /\ ((forall s n s' m, fixture_setup s n = Ok (s', m) ->
                          m = n /\ inc_trsf s' = inc_trsf s) ->
        inc_trsf four_tasks = chains /\ one_chain_per_task four_tasks).
Proof.
  apply (init_one_chain_per_task fixture_super_init fixture_setup
           ([100%nat; 101%nat; 102%nat], [5; 6; 5], [5; 6; 5]) 4
           (Some [[10%nat]; [11%nat]; [12%nat]; [13%nat]]) (Some [7%nat])
           four_tasks).
  reflexivity.
Defined.

End TransformationProperties.
